(** * Tailhoogram webhook relay: signature verification, event decoding and
      batch dispatch

    A shallow embedding of [src/security.py], [src/models.py],
    [src/exception_handlers.py] and the request path of [src/app.py],
    followed by the properties of the specification that concern them.

    Conventions of the embedding.
    - A Python [bytes] value is a [list byte].
    - A Python [str] that comes from an HTTP header (decoded as latin-1 by the
      ASGI server, so every code point is below 256) is a [string]; the
      character [ascii_of_N n] stands for the code point [n].
    - The configured secret, a [str] read from the environment, is the list
      of its code points, so that [secret.encode("utf-8")] can be written
      out.
    - A Python [int] is a [Z].
    - The wall clock, [int(time.time())], is an explicit argument [now]; the
      identifier made by [uuid.uuid4()] is an explicit argument
      [request_id].
    - A raised exception is a value of [result]; [try]/[except] is a match
      on it.
    - The world outside the process, which [send] acts on, is threaded
      through the dispatch loop as a state [W]; the awaits of the loop are
      sequential, and so is the model.
    - hashlib, hmac and the built-ins [int], [str], [split] are written out;
      pydantic-core's JSON reader and its [int] and [datetime] validators
      are the fields of the class [PydanticCore]. *)

From Stdlib Require Import ZArith NArith List String Ascii Bool Lia.
From Stdlib Require Import Init.Byte Strings.Byte Numbers.DecimalZ Numbers.DecimalPos Numbers.DecimalString.
Import ListNotations.

Local Open Scope string_scope.
Local Open Scope list_scope.

(** ** Exceptions *)

(** The three places where the endpoint raises [WebhookVerificationError]:
    "Webhook secret not configured", "Signature verification failed" and
    "Invalid event data: ...". *)
Inductive verification_failure : Type :=
| SecretNotConfigured
| SignatureVerificationFailed
| InvalidEventData.

(** The exception classes of the request path, all subclasses of
    [Exception]. *)
Inductive exn : Type :=
| ValueError
| TypeError
| IndexError
| UnicodeEncodeError
| ValidationError
| WebhookVerificationError (why : verification_failure).

Inductive result (A : Type) : Type :=
| Return (a : A)
| Raise (e : exn).
Arguments Return {A} a.
Arguments Raise {A} e.

Definition bind {A B : Type} (m : result A) (k : A -> result B) : result B :=
  match m with
  | Return a => k a
  | Raise e => Raise e
  end.

Notation "x <- m ;; k" := (bind m (fun x => k))
  (at level 61, m at next level, right associativity).

(** ** Bytes and hexadecimal rendering *)

Definition bytes := list byte.

Definition byte_of_N (n : N) : byte :=
  match Byte.of_N (n mod 256) with
  | Some b => b
  | None => x00
  end.

Definition bytes_of_string (s : string) : bytes := list_byte_of_string s.

(** One lowercase hexadecimal digit, for a value below 16. *)
Definition hex_digit (n : N) : ascii :=
  if (n <? 10)%N then ascii_of_N (48 + n) else ascii_of_N (87 + n).

Definition hex_of_byte (b : byte) : string :=
  let n := Byte.to_N b in
  String (hex_digit (n / 16)) (String (hex_digit (n mod 16)) EmptyString).

(** [bytes.hex()]: two lowercase hexadecimal digits per byte. *)
Fixpoint hex (bs : bytes) : string :=
  match bs with
  | [] => EmptyString
  | b :: bs' => hex_of_byte b ++ hex bs'
  end.

(** ** SHA-256 (hashlib.sha256), after FIPS 180-4 *)

Module SHA256.

Local Open Scope N_scope.

Definition mask32 : N := 0xFFFFFFFF.
Definition wrap32 (x : N) : N := N.land x mask32.
Definition add32 (x y : N) : N := wrap32 (x + y).
Definition not32 (x : N) : N := N.lxor x mask32.
Definition rotr (n x : N) : N :=
  N.lor (N.shiftr x n) (wrap32 (N.shiftl x (32 - n))).
Definition shr (n x : N) : N := N.shiftr x n.

Definition Ch (x y z : N) : N := N.lxor (N.land x y) (N.land (not32 x) z).
Definition Maj (x y z : N) : N :=
  N.lxor (N.lxor (N.land x y) (N.land x z)) (N.land y z).
Definition bsig0 (x : N) : N := N.lxor (N.lxor (rotr 2 x) (rotr 13 x)) (rotr 22 x).
Definition bsig1 (x : N) : N := N.lxor (N.lxor (rotr 6 x) (rotr 11 x)) (rotr 25 x).
Definition ssig0 (x : N) : N := N.lxor (N.lxor (rotr 7 x) (rotr 18 x)) (shr 3 x).
Definition ssig1 (x : N) : N := N.lxor (N.lxor (rotr 17 x) (rotr 19 x)) (shr 10 x).

(** The first sixty-four primes. *)
Definition primes : list N :=
  [2; 3; 5; 7; 11; 13; 17; 19; 23; 29; 31; 37; 41; 43; 47; 53; 59; 61; 67; 71;
   73; 79; 83; 89; 97; 101; 103; 107; 109; 113; 127; 131; 137; 139; 149; 151;
   157; 163; 167; 173; 179; 181; 191; 193; 197; 199; 211; 223; 227; 229; 233;
   239; 241; 251; 257; 263; 269; 271; 277; 281; 283; 293; 307; 311].

(** Integer cube root, one bit at a time from bit [k - 1] down. *)
Fixpoint cube_root_bits (k : nat) (n r : N) : N :=
  match k with
  | O => r
  | S k' =>
      let r' := r + 2 ^ N.of_nat k' in
      cube_root_bits k' n (if r' * r' * r' <=? n then r' else r)
  end.

(** First 32 bits of the fractional part of the cube root of [p]. *)
Definition cube_root_fraction (p : N) : N :=
  wrap32 (cube_root_bits 40 (p * 2 ^ 96) 0).

(** First 32 bits of the fractional part of the square root of [p]. *)
Definition square_root_fraction (p : N) : N :=
  wrap32 (N.sqrt (p * 2 ^ 64)).

(** The round constants: the cube roots of the sixty-four primes. *)
Definition K : list N := Eval vm_compute in map cube_root_fraction primes.

(** The eight working words, also the shape of a hash value. *)
Record state : Type := mk_state {
  sa : N; sb : N; sc : N; sd : N; se : N; sf : N; sg : N; sh : N
}.

(** The initial hash value: the square roots of the first eight primes. *)
Definition H0 : state :=
  Eval vm_compute in
    mk_state (square_root_fraction 2) (square_root_fraction 3)
             (square_root_fraction 5) (square_root_fraction 7)
             (square_root_fraction 11) (square_root_fraction 13)
             (square_root_fraction 17) (square_root_fraction 19).

(** Big-endian rendering of the low [n] bytes of [x]. *)
Fixpoint be_bytes (n : nat) (x : N) : bytes :=
  match n with
  | O => []
  | S n' => byte_of_N (N.shiftr x (8 * N.of_nat n')) :: be_bytes n' x
  end.

Definition be_word (bs : bytes) : N :=
  fold_left (fun acc b => acc * 256 + Byte.to_N b) bs 0.

(** Padding: a [0x80] byte, zero bytes up to 56 modulo 64, then the bit
    length on eight bytes. *)
Definition pad (msg : bytes) : bytes :=
  let len := N.of_nat (List.length msg) in
  let zeros := N.to_nat ((119 - len mod 64) mod 64) in
  msg ++ x80 :: repeat x00 zeros ++ be_bytes 8 (8 * len).

(** Cuts a list into groups of [n + 1] elements; a shorter tail is kept. *)
Fixpoint groups_aux {A : Type} (n : nat) (l : list A) (cur : list A) (k : nat)
  : list (list A) :=
  match l with
  | [] => match cur with [] => [] | _ => [rev cur] end
  | x :: l' =>
      match k with
      | O => rev (x :: cur) :: groups_aux n l' [] n
      | S k' => groups_aux n l' (x :: cur) k'
      end
  end.

Definition groups {A : Type} (n : nat) (l : list A) : list (list A) :=
  groups_aux n l [] n.

(** The message schedule, latest word first while it is built. *)
Fixpoint extend (n : nat) (rev_w : list N) : list N :=
  match n with
  | O => rev_w
  | S n' =>
      let wt :=
        add32 (add32 (ssig1 (nth 1 rev_w 0)) (nth 6 rev_w 0))
              (add32 (ssig0 (nth 14 rev_w 0)) (nth 15 rev_w 0)) in
      extend n' (wt :: rev_w)
  end.

Definition schedule (block : bytes) : list N :=
  rev (extend 48 (rev (map be_word (groups 3 block)))).

Definition round (s : state) (kw : N * N) : state :=
  let t1 := add32 (add32 (add32 (sh s) (bsig1 (se s)))
                         (add32 (Ch (se s) (sf s) (sg s)) (fst kw))) (snd kw) in
  let t2 := add32 (bsig0 (sa s)) (Maj (sa s) (sb s) (sc s)) in
  mk_state (add32 t1 t2) (sa s) (sb s) (sc s) (add32 (sd s) t1) (se s) (sf s) (sg s).

Definition compress (h : state) (block : bytes) : state :=
  let s := fold_left round (combine K (schedule block)) h in
  mk_state (add32 (sa h) (sa s)) (add32 (sb h) (sb s))
           (add32 (sc h) (sc s)) (add32 (sd h) (sd s))
           (add32 (se h) (se s)) (add32 (sf h) (sf s))
           (add32 (sg h) (sg s)) (add32 (sh h) (sh s)).

Definition digest_of_state (s : state) : bytes :=
  flat_map (be_bytes 4) [sa s; sb s; sc s; sd s; se s; sf s; sg s; sh s].

Definition digest (msg : bytes) : bytes :=
  digest_of_state (fold_left compress (groups 63 (pad msg)) H0).

Definition block_size : nat := 64.

End SHA256.

(** ** HMAC (hmac.new(key, msg, hashlib.sha256)), after RFC 2104 *)

Module HMAC.

Definition xor_byte (c : N) (b : byte) : byte :=
  byte_of_N (N.lxor (Byte.to_N b) c).

(** A key longer than the block is hashed first; it is then filled with
    zero bytes up to the block size. *)
Definition block_key (key : bytes) : bytes :=
  let k := if (SHA256.block_size <? List.length key)%nat then SHA256.digest key else key in
  k ++ repeat x00 (SHA256.block_size - List.length k).

Definition digest (key msg : bytes) : bytes :=
  let k := block_key key in
  SHA256.digest (map (xor_byte 0x5c) k ++ SHA256.digest (map (xor_byte 0x36) k ++ msg)).

Definition hexdigest (key msg : bytes) : string := hex (digest key msg).

End HMAC.

(** ** Python built-ins used by [security.py] *)

Definition code (c : ascii) : N := N_of_ascii c.

(** [s.startswith(p)] *)
Definition startswith (p s : string) : bool := String.prefix p s.

(** [s[n:]] *)
Fixpoint drop (n : nat) (s : string) : string :=
  match n, s with
  | O, _ => s
  | S n', String _ s' => drop n' s'
  | S _, EmptyString => EmptyString
  end.

(** [s.split(sep)] for a one-character separator: one more part than there
    are separators, empty parts included. *)
Fixpoint split (sep : ascii) (s : string) : list string :=
  match s with
  | EmptyString => [EmptyString]
  | String c s' =>
      if Ascii.eqb c sep then EmptyString :: split sep s'
      else match split sep s' with
           | p :: ps => String c p :: ps
           | [] => [String c EmptyString]
           end
  end.

(** [str.isascii()] *)
Fixpoint isascii (s : string) : bool :=
  match s with
  | EmptyString => true
  | String c s' => (code c <? 128)%N && isascii s'
  end.

(** *** [int(s)] for a [str] argument, base 10

    CPython first rewrites a non-ASCII string: a Unicode white space becomes
    a blank, a Unicode decimal digit its ASCII digit, and the first other
    character at or above 127 becomes [?] and ends the string. Below 256 the
    only white space at or above 127 is U+0085 and U+00A0, and there is no
    decimal digit. The literal is then: blanks, an optional sign, digits
    with single underscores between them, blanks. Integers are unbounded; the
    interpreter's optional limit on the number of digits of a literal is not
    part of the model. *)

Definition unicode_space_high (c : ascii) : bool :=
  ((code c =? 133) || (code c =? 160))%N.

Fixpoint transform_decimal_and_space (s : string) : string :=
  match s with
  | EmptyString => EmptyString
  | String c s' =>
      if (code c <? 127)%N then String c (transform_decimal_and_space s')
      else if unicode_space_high c then String " " (transform_decimal_and_space s')
      else String "?" EmptyString
  end.

(** [Py_ISSPACE]: tab, line feed, vertical tab, form feed, carriage return,
    blank. *)
Definition py_isspace (c : ascii) : bool :=
  ((9 <=? code c) && (code c <=? 13) || (code c =? 32))%N.

Fixpoint skip_spaces (s : string) : string :=
  match s with
  | String c s' => if py_isspace c then skip_spaces s' else s
  | EmptyString => s
  end.

Definition digit_of_ascii (c : ascii) : option (Decimal.uint -> Decimal.uint) :=
  match code c with
  | 48%N => Some Decimal.D0
  | 49%N => Some Decimal.D1
  | 50%N => Some Decimal.D2
  | 51%N => Some Decimal.D3
  | 52%N => Some Decimal.D4
  | 53%N => Some Decimal.D5
  | 54%N => Some Decimal.D6
  | 55%N => Some Decimal.D7
  | 56%N => Some Decimal.D8
  | 57%N => Some Decimal.D9
  | _ => None
  end.

Definition is_underscore (c : ascii) : bool := Ascii.eqb c "_".

(** The run of digits and underscores at the head of [s], with what follows
    it; [prev] is the character before [s]. Two underscores in a row, or an
    underscore at the end of the run, are an error. *)
Fixpoint digits_run (s : string) (prev : ascii) : option (Decimal.uint * string) :=
  match s with
  | EmptyString => if is_underscore prev then None else Some (Decimal.Nil, s)
  | String c s' =>
      match digit_of_ascii c with
      | Some d =>
          match digits_run s' c with
          | Some (u, rest) => Some (d u, rest)
          | None => None
          end
      | None =>
          if is_underscore c then
            if is_underscore prev then None else digits_run s' c
          else if is_underscore prev then None else Some (Decimal.Nil, s)
      end
  end.

Definition is_nil (u : Decimal.uint) : bool :=
  match u with Decimal.Nil => true | _ => false end.

Definition py_int (s : string) : result Z :=
  let s0 := if isascii s then s else transform_decimal_and_space s in
  let s1 := skip_spaces s0 in
  let '(negative, s2) :=
    match s1 with
    | String "+" r => (false, r)
    | String "-" r => (true, r)
    | _ => (false, s1)
    end in
  match s2 with
  | String "_" _ => Raise ValueError
  | _ =>
      match digits_run s2 zero with
      | None => Raise ValueError
      | Some (u, rest) =>
          if is_nil u then Raise ValueError
          else
            match skip_spaces rest with
            | EmptyString => Return (if negative then (- Z.of_uint u)%Z else Z.of_uint u)
            | _ => Raise ValueError
            end
      end
  end.

(** [str(n)] for an [int]: the decimal digits, with a minus sign before a
    negative number (as for [int], without the interpreter's limit on the
    number of digits). *)
Definition py_str (n : Z) : string :=
  DecimalString.NilEmpty.string_of_int (Z.to_int n).

(** UTF-8 bytes of one code point. *)
Definition utf8_bytes (c : N) : bytes :=
  let cont (k : N) := byte_of_N (N.lor 128 (N.land (N.shiftr c k) 63)) in
  if (c <? 128)%N then [byte_of_N c]
  else if (c <? 2048)%N then [byte_of_N (N.lor 192 (N.shiftr c 6)); cont 0%N]
  else if (c <? 65536)%N then
    [byte_of_N (N.lor 224 (N.shiftr c 12)); cont 6%N; cont 0%N]
  else [byte_of_N (N.lor 240 (N.shiftr c 18)); cont 12%N; cont 6%N; cont 0%N].

(** [s.encode("utf-8")] for a [str] of code points below 256; it cannot
    fail there. *)
Definition encode_utf8 (s : string) : bytes :=
  flat_map (fun c => utf8_bytes (code c)) (list_ascii_of_string s).

(** [hmac.compare_digest(a, b)] on two [str]: a [TypeError] unless both are
    ASCII, otherwise their equality (the time it takes is not modelled). *)
Definition compare_digest (a b : string) : result bool :=
  if isascii a && isascii b then Return (String.eqb a b) else Raise TypeError.

(** ** security.py *)

(** The loop of [parse_signature_header] over the parts of the header. *)
Fixpoint parse_parts (parts : list string) (timestamp : option Z)
    (signature : option string) : result (option Z * option string) :=
  match parts with
  | [] => Return (timestamp, signature)
  | part :: rest =>
      if startswith "t=" part then
        t <- py_int (drop 2 part) ;;
        parse_parts rest (Some t) signature
      else if startswith "v1=" part then
        parse_parts rest timestamp (Some (drop 3 part))
      else parse_parts rest timestamp signature
  end.

Definition parse_signature_header (signature_header : string)
  : result (option string * option Z) :=
  match parse_parts (split "," signature_header) None None with
  | Return (Some timestamp, Some signature) => Return (Some signature, Some timestamp)
  | Return _ => Return (None, None)
  | Raise ValueError | Raise IndexError => Return (None, None)
  | Raise e => Raise e
  end.

Definition validate_timestamp (now timestamp tolerance_seconds : Z) : bool :=
  let current_time := now in
  let age := (current_time - timestamp)%Z in
  if (age <? 0)%Z then false
  else if (age >? tolerance_seconds)%Z then false
  else true.

Definition compute_signature (timestamp : Z) (body secret : bytes) : string :=
  let timestamp_bytes := encode_utf8 (py_str timestamp) in
  let signing_string := timestamp_bytes ++ bytes_of_string "." ++ body in
  HMAC.hexdigest secret signing_string.

Definition verify_signature (now : Z) (signature_header : string)
    (body secret : bytes) (timestamp_tolerance_seconds : Z) : result bool :=
  parsed <- parse_signature_header signature_header ;;
  match parsed with
  | (Some provided_signature, Some timestamp) =>
      if negb (validate_timestamp now timestamp timestamp_tolerance_seconds)
      then Return false
      else
        let expected_signature := compute_signature timestamp body secret in
        same <- compare_digest expected_signature provided_signature ;;
        if negb same then Return false else Return true
  | _ => Return false
  end.

(** The header the sender builds: [t=<timestamp>,v1=<signature>]. *)
Definition signature_header_of (timestamp : Z) (signature : string) : string :=
  "t=" ++ py_str timestamp ++ ",v1=" ++ signature.


(** [s.encode("utf-8")] for a [str] given by its code points: a surrogate
    (U+D800 to U+DFFF) cannot be encoded. *)
Definition is_surrogate (c : N) : bool := ((55296 <=? c) && (c <=? 57343))%N.

Definition str_encode_utf8 (s : list N) : result bytes :=
  if existsb is_surrogate s then Raise UnicodeEncodeError
  else Return (flat_map utf8_bytes s).

(** ** JSON values and the pydantic interface *)

(** A parsed JSON document. A number keeps its literal; an object keeps its
    members in the order of the document, duplicates included. *)
#[local] Set Warnings "-register-all".
Inductive json : Type :=
| JNull
| JBool (b : bool)
| JNumber (literal : string)
| JString (s : string)
| JArray (items : list json)
| JObject (members : list (string * json)).

(** The value of a key in an object: the last member with that key. *)
Fixpoint get (key : string) (members : list (string * json)) : option json :=
  match members with
  | [] => None
  | (k, v) :: rest =>
      match get key rest with
      | Some v' => Some v'
      | None => if String.eqb k key then Some v else None
      end
  end.

(** [datetime.datetime]: the calendar fields and, for an aware value, the
    offset from UTC in seconds. *)
Record datetime : Type := mk_datetime {
  year : Z; month : Z; day : Z;
  hour : Z; minute : Z; second : Z; microsecond : Z;
  utcoffset : option Z
}.

(** The parts of pydantic-core the models rely on and that are not code of
    this repository: the JSON reader ([None] for a body that is not JSON) and
    the validators of the scalar field types [int] and [datetime] ([None]
    for a value they reject). Nothing is assumed about them. *)
Class PydanticCore : Type := {
  json_loads : bytes -> option json;
  int_validator : json -> option Z;
  datetime_validator : json -> option datetime
}.

(** [str] field: a JSON string, nothing else. *)
Definition str_validator (j : json) : option string :=
  match j with JString s => Some s | _ => None end.

(** [dict[str, Any]] field: a JSON object, its values unconstrained. *)
Definition dict_validator (j : json) : option (list (string * json)) :=
  match j with JObject members => Some members | _ => None end.

(** A field without default: absent or rejected is a validation error. *)
Definition required {A : Type} (name : string) (validator : json -> option A)
    (members : list (string * json)) : result A :=
  match get name members with
  | None => Raise ValidationError
  | Some j =>
      match validator j with
      | Some a => Return a
      | None => Raise ValidationError
      end
  end.

(** A field with a default: the default when absent. *)
Definition with_default {A : Type} (name : string) (validator : json -> option A)
    (default : A) (members : list (string * json)) : result A :=
  match get name members with
  | None => Return default
  | Some j =>
      match validator j with
      | Some a => Return a
      | None => Raise ValidationError
      end
  end.

Fixpoint traverse {A B : Type} (f : A -> result B) (l : list A) : result (list B) :=
  match l with
  | [] => Return []
  | x :: l' => y <- f x ;; ys <- traverse f l' ;; Return (y :: ys)
  end.

(** ** models.py *)

Module TailscaleEvent.

(** [extra] holds the members that are not declared fields
    ([model_config = ConfigDict(extra="allow")]). *)
Record t : Type := mk {
  timestamp : datetime;
  version : Z;
  type : string;
  tailnet : string;
  message : string;
  data : list (string * json);
  extra : list (string * json)
}.

Definition fields : list string :=
  ["timestamp"; "version"; "type"; "tailnet"; "message"; "data"].

Definition is_field (name : string) : bool :=
  existsb (String.eqb name) fields.

(** Validation of one element of the body against the model. *)
Definition validate `{PydanticCore} (j : json) : result t :=
  match j with
  | JObject members =>
      timestamp <- required "timestamp" datetime_validator members ;;
      version <- required "version" int_validator members ;;
      type <- required "type" str_validator members ;;
      tailnet <- required "tailnet" str_validator members ;;
      message <- required "message" str_validator members ;;
      data <- with_default "data" dict_validator [] members ;;
      Return (mk timestamp version type tailnet message data
                 (filter (fun kv => negb (is_field (fst kv))) members))
  | _ => Raise ValidationError
  end.

End TailscaleEvent.

Module NotificationPayload.

Record t : Type := mk {
  event_type : string;
  event_message : string;
  tailnet : string;
  timestamp : datetime;
  raw_data : list (string * json)
}.

Definition from_tailscale_event (event : TailscaleEvent.t) : t :=
  mk (TailscaleEvent.type event)
     (TailscaleEvent.message event)
     (TailscaleEvent.tailnet event)
     (TailscaleEvent.timestamp event)
     (TailscaleEvent.data event).

End NotificationPayload.

(** [_EVENTS_ADAPTER.validate_json(body)] with
    [_EVENTS_ADAPTER = TypeAdapter(list[TailscaleEvent])]. *)
Definition validate_json `{PydanticCore} (body : bytes) : result (list TailscaleEvent.t) :=
  match json_loads body with
  | None => Raise ValidationError
  | Some (JArray items) => traverse TailscaleEvent.validate items
  | Some _ => Raise ValidationError
  end.

(** ** exception_handlers.py *)

Record JSONResponse : Type := mk_response {
  status_code : Z;
  content : json;
  headers : list (string * string)
}.

Definition HTTP_202_ACCEPTED : Z := 202.
Definition HTTP_401_UNAUTHORIZED : Z := 401.
Definition HTTP_500_INTERNAL_SERVER_ERROR : Z := 500.

Definition webhook_verification_error_handler (exc : exn) : JSONResponse :=
  mk_response HTTP_401_UNAUTHORIZED
    (JObject [("detail", JString "Invalid webhook signature or timestamp")]) [].

Definition generic_exception_handler (exc : exn) : JSONResponse :=
  mk_response HTTP_500_INTERNAL_SERVER_ERROR
    (JObject [("detail", JString "Internal server error")]) [].

(** The handlers registered by [setup_exception_handlers]: one for
    [WebhookVerificationError], one for every other [Exception]. *)
Definition exception_handler (exc : exn) : JSONResponse :=
  match exc with
  | WebhookVerificationError _ => webhook_verification_error_handler exc
  | _ => generic_exception_handler exc
  end.

(** ** config.py and the notification channel *)

Record Config : Type := mk_config {
  tailscale_webhook_secret : list N;
  telegram_bot_token : string;
  telegram_chat_id : string;
  webhook_timestamp_tolerance_seconds : Z
}.

(** The channel as the processor sees it: [send] returns a truth value or
    raises, and may change the world [W] outside the process. *)
Record Channel (W : Type) : Type := mk_channel {
  send : NotificationPayload.t -> W -> result bool * W
}.
Arguments send {W} _ _ _.
Arguments mk_channel {W} _.

Record AppState (W : Type) : Type := mk_app {
  config : Config;
  telegram_channel : option (Channel W)
}.
Arguments config {W} _.
Arguments telegram_channel {W} _.
Arguments mk_app {W} _ _.

(** ** app.py *)

(** The [for event in events] loop of [process_webhook_events]. *)
Fixpoint process_loop {W : Type} (send_notification : NotificationPayload.t -> W -> result bool * W)
    (events : list TailscaleEvent.t) (all_success : bool) (w : W) : bool * W :=
  match events with
  | [] => (all_success, w)
  | event :: rest =>
      let payload := NotificationPayload.from_tailscale_event event in
      match send_notification payload w with
      | (Return success, w') =>
          if negb success then process_loop send_notification rest false w'
          else process_loop send_notification rest all_success w'
      | (Raise _, w') => process_loop send_notification rest false w'
      end
  end.

Definition process_webhook_events {W : Type} (events : list TailscaleEvent.t)
    (telegram_channel : option (Channel W)) (w : W) : bool * W :=
  match telegram_channel with
  | None => (true, w)
  | Some channel => process_loop (send channel) events true w
  end.

Definition failed_response (request_id : string) : JSONResponse :=
  mk_response HTTP_500_INTERNAL_SERVER_ERROR
    (JObject [("status", JString "failed");
              ("message", JString "Failed to process one or more events");
              ("request_id", JString request_id)])
    [("X-Request-ID", request_id)].

Definition accepted_response (request_id : string) (count : nat) : JSONResponse :=
  mk_response HTTP_202_ACCEPTED
    (JObject [("status", JString "accepted");
              ("message", JString ("Received " ++ py_str (Z.of_nat count)
                                   ++ " webhook event(s), processed successfully"));
              ("request_id", JString request_id)])
    [("X-Request-ID", request_id)].

(** The endpoint [webhook_tailscale]. [request_id] is the value of
    [str(uuid.uuid4())], [body] that of [request.body()]. *)
Definition webhook_tailscale `{PydanticCore} {W : Type} (app : AppState W)
    (now : Z) (request_id : string) (body : bytes)
    (tailscale_webhook_signature : string) (w : W) : result JSONResponse * W :=
  let secret := tailscale_webhook_secret (config app) in
  match secret with
  | [] => (Raise (WebhookVerificationError SecretNotConfigured), w)
  | _ =>
    match str_encode_utf8 secret with
    | Raise e => (Raise e, w)
    | Return secret_bytes =>
      match verify_signature now tailscale_webhook_signature body secret_bytes
              (webhook_timestamp_tolerance_seconds (config app)) with
      | Raise e => (Raise e, w)
      | Return false => (Raise (WebhookVerificationError SignatureVerificationFailed), w)
      | Return true =>
        match validate_json body with
        | Raise ValidationError | Raise ValueError | Raise TypeError =>
            (Raise (WebhookVerificationError InvalidEventData), w)
        | Raise e => (Raise e, w)
        | Return events =>
            let '(success, w') := process_webhook_events events (telegram_channel app) w in
            if negb success then (Return (failed_response request_id), w')
            else (Return (accepted_response request_id (List.length events)), w')
        end
      end
    end
  end.

(** A POST to [/events] as the client sees it: the endpoint's response, or
    that of the handler of the exception it raised. *)
Definition post_events `{PydanticCore} {W : Type} (app : AppState W)
    (now : Z) (request_id : string) (body : bytes)
    (tailscale_webhook_signature : string) (w : W) : JSONResponse * W :=
  match webhook_tailscale app now request_id body tailscale_webhook_signature w with
  | (Return response, w') => (response, w')
  | (Raise exc, w') => (exception_handler exc, w')
  end.

(** A channel that also keeps the list of the payloads it was called with,
    oldest first, as a mock of the test-suite does. *)
Definition recording {W : Type} (channel : Channel W)
  : Channel (W * list NotificationPayload.t) :=
  mk_channel (fun payload st =>
    let '(r, w') := send channel payload (fst st) in
    (r, (w', snd st ++ [payload]))).

(** What [send] answers when it is called once for each payload, in order. *)
Fixpoint deliveries {W : Type} (channel : Channel W)
    (payloads : list NotificationPayload.t) (w : W) : list (result bool) :=
  match payloads with
  | [] => []
  | payload :: rest =>
      let '(r, w') := send channel payload w in
      r :: deliveries channel rest w'
  end.

Definition delivered (r : result bool) : bool :=
  match r with Return true => true | _ => false end.

(** ** An instance of the pydantic interface for the examples

    A reader for JSON texts (RFC 8259, without [\u] escapes in strings), an
    [int] validator that takes integer literals and a [datetime] validator
    that takes [YYYY-MM-DDTHH:MM:SSZ]. pydantic accepts more than these; the
    theorems below do not depend on this instance, only the examples run on
    it. *)

Module Reader.

Local Open Scope string_scope.

(** The double quote. *)
Definition quote : ascii := ascii_of_N 34.

(** A text written with single quotes, with double quotes in their place. *)
Fixpoint quoted (s : string) : string :=
  match s with
  | EmptyString => EmptyString
  | String c s' => String (if (code c =? 39)%N then quote else c) (quoted s')
  end.

Definition json_space (c : ascii) : bool :=
  ((code c =? 32) || (code c =? 9) || (code c =? 10) || (code c =? 13))%N.

Fixpoint skip_ws (s : string) : string :=
  match s with
  | String c s' => if json_space c then skip_ws s' else s
  | EmptyString => s
  end.

Definition unescape (c : ascii) : option ascii :=
  match code c with
  | 34%N => Some c
  | 92%N => Some c
  | 47%N => Some c
  | 98%N => Some (ascii_of_N 8)
  | 102%N => Some (ascii_of_N 12)
  | 110%N => Some (ascii_of_N 10)
  | 114%N => Some (ascii_of_N 13)
  | 116%N => Some (ascii_of_N 9)
  | _ => None
  end.

(** The characters of a string up to its closing quote, and what follows. *)
Fixpoint string_body (s : string) : option (string * string) :=
  match s with
  | EmptyString => None
  | String c r =>
      if (code c =? 34)%N then Some (EmptyString, r)
      else if (code c =? 92)%N then
        match r with
        | String e r' =>
            match unescape e, string_body r' with
            | Some ch, Some (body, rest) => Some (String ch body, rest)
            | _, _ => None
            end
        | EmptyString => None
        end
      else if (code c <? 32)%N then None
      else
        match string_body r with
        | Some (body, rest) => Some (String c body, rest)
        | None => None
        end
  end.

Definition is_digit (c : ascii) : bool := ((48 <=? code c) && (code c <=? 57))%N.

Fixpoint span_digits (s : string) : string * string :=
  match s with
  | String c r =>
      if is_digit c then let '(ds, rest) := span_digits r in (String c ds, rest)
      else (EmptyString, s)
  | EmptyString => (EmptyString, s)
  end.

Definition nonempty (s : string) : bool :=
  match s with EmptyString => false | _ => true end.

(** A number literal: sign, integer part without leading zero, fraction,
    exponent. *)
Definition number (s : string) : option (string * string) :=
  let '(sign, s1) :=
    match s with String "-" r => ("-", r) | _ => (EmptyString, s) end in
  let '(int_part, s2) := span_digits s1 in
  let int_ok :=
    match int_part with
    | EmptyString => false
    | String "0" (String _ _) => false
    | _ => true
    end in
  if negb int_ok then None
  else
    let frac :=
      match s2 with
      | String "." r =>
          let '(ds, rest) := span_digits r in
          if nonempty ds then Some ("." ++ ds, rest) else None
      | _ => Some (EmptyString, s2)
      end in
    match frac with
    | None => None
    | Some (frac_part, s3) =>
        match s3 with
        | String e r =>
            if ((code e =? 101) || (code e =? 69))%N then
              let '(esign, r1) :=
                match r with
                | String "+" r' => ("+", r')
                | String "-" r' => ("-", r')
                | _ => (EmptyString, r)
                end in
              let '(ds, rest) := span_digits r1 in
              if nonempty ds
              then Some (sign ++ int_part ++ frac_part ++ String e esign ++ ds, rest)
              else None
            else Some (sign ++ int_part ++ frac_part, s3)
        | EmptyString => Some (sign ++ int_part ++ frac_part, s3)
        end
    end.

Definition expect (word : string) (v : json) (s : string) : option (json * string) :=
  if String.prefix word s then Some (v, drop (String.length word) s) else None.

(** One value at the head of [s]; [fuel] bounds the nesting and the number
    of elements read, the length of the text is always enough. *)
Fixpoint value (fuel : nat) (s : string) : option (json * string) :=
  match fuel with
  | O => None
  | S fuel' =>
      match skip_ws s with
      | String "n" _ as t => expect "null" JNull t
      | String "t" _ as t => expect "true" (JBool true) t
      | String "f" _ as t => expect "false" (JBool false) t
      | String "[" r =>
          match skip_ws r with
          | String "]" rest => Some (JArray [], rest)
          | t =>
              match elements fuel' t with
              | Some (items, rest) => Some (JArray items, rest)
              | None => None
              end
          end
      | String "{" r =>
          match skip_ws r with
          | String "}" rest => Some (JObject [], rest)
          | t =>
              match members fuel' t with
              | Some (ms, rest) => Some (JObject ms, rest)
              | None => None
              end
          end
      | String c r as t =>
          if Ascii.eqb c quote then
            match string_body r with
            | Some (body, rest) => Some (JString body, rest)
            | None => None
            end
          else
            match number t with
            | Some (literal, rest) => Some (JNumber literal, rest)
            | None => None
            end
      | EmptyString => None
      end
  end
with elements (fuel : nat) (s : string) : option (list json * string) :=
  match fuel with
  | O => None
  | S fuel' =>
      match value fuel' s with
      | Some (v, rest) =>
          match skip_ws rest with
          | String "," r =>
              match elements fuel' r with
              | Some (vs, rest') => Some (v :: vs, rest')
              | None => None
              end
          | String "]" r => Some ([v], r)
          | _ => None
          end
      | None => None
      end
  end
with members (fuel : nat) (s : string) : option (list (string * json) * string) :=
  match fuel with
  | O => None
  | S fuel' =>
      match skip_ws s with
      | String c r =>
          match (if Ascii.eqb c quote then string_body r else None) with
          | Some (key, rest) =>
              match skip_ws rest with
              | String ":" r1 =>
                  match value fuel' r1 with
                  | Some (v, rest1) =>
                      match skip_ws rest1 with
                      | String "," r2 =>
                          match members fuel' r2 with
                          | Some (ms, rest2) => Some ((key, v) :: ms, rest2)
                          | None => None
                          end
                      | String "}" r2 => Some ([(key, v)], r2)
                      | _ => None
                      end
                  | None => None
                  end
              | _ => None
              end
          | None => None
          end
      | EmptyString => None
      end
  end.

Definition loads (body : bytes) : option json :=
  let s := string_of_list_byte body in
  match value (2 * String.length s + 2) s with
  | Some (v, rest) =>
      match skip_ws rest with
      | EmptyString => Some v
      | _ => None
      end
  | None => None
  end.

Definition integer (j : json) : option Z :=
  match j with
  | JNumber literal =>
      match py_int literal with
      | Return z => Some z
      | Raise _ => None
      end
  | _ => None
  end.

(** The number written by the [n] digits at the head of [s]. *)
Definition field (n : nat) (s : string) : option (Z * string) :=
  let '(ds, _) := span_digits s in
  if (n <=? String.length ds)%nat then
    match py_int (substring 0 n s) with
    | Return z => Some (z, drop n s)
    | Raise _ => None
    end
  else None.

Definition sep (c : ascii) (s : string) : option string :=
  match s with
  | String c' r => if Ascii.eqb c c' then Some r else None
  | EmptyString => None
  end.

Definition utc_datetime (j : json) : option datetime :=
  match j with
  | JString s =>
      match field 4 s with
      | Some (y, s1) =>
      match sep "-" s1 with Some s2 =>
      match field 2 s2 with Some (mo, s3) =>
      match sep "-" s3 with Some s4 =>
      match field 2 s4 with Some (d, s5) =>
      match sep "T" s5 with Some s6 =>
      match field 2 s6 with Some (h, s7) =>
      match sep ":" s7 with Some s8 =>
      match field 2 s8 with Some (mi, s9) =>
      match sep ":" s9 with Some s10 =>
      match field 2 s10 with Some (sec, s11) =>
      match s11 with
      | String "Z" EmptyString =>
          if ((1 <=? mo) && (mo <=? 12) && (1 <=? d) && (d <=? 31)
              && (h <=? 23) && (mi <=? 59) && (sec <=? 59))%Z
          then Some (mk_datetime y mo d h mi sec 0 (Some 0%Z))
          else None
      | _ => None
      end
      | None => None end | None => None end | None => None end
      | None => None end | None => None end | None => None end
      | None => None end | None => None end | None => None end
      | None => None end
      | None => None
      end
  | _ => None
  end.

#[export] Instance pydantic : PydanticCore :=
  {| json_loads := loads;
     int_validator := integer;
     datetime_validator := utc_datetime |}.

End Reader.

(** ** Vocabulary of the properties *)

(** [c in s] *)
Fixpoint char_in (c : ascii) (s : string) : bool :=
  match s with
  | EmptyString => false
  | String c' s' => Ascii.eqb c' c || char_in c s'
  end.

(** The declared fields of an element; a value that is not an object has
    none. *)
Definition members_of (j : json) : list (string * json) :=
  match j with JObject members => members | _ => [] end.


Definition is_some {A : Type} (o : option A) : bool :=
  match o with Some _ => true | None => false end.

(** Whether the validator of the declared field [name] takes [j]. *)
Definition field_accepts `{PydanticCore} (name : string) (j : json) : bool :=
  if String.eqb name "timestamp" then is_some (datetime_validator j)
  else if String.eqb name "version" then is_some (int_validator j)
  else if String.eqb name "data" then is_some (dict_validator j)
  else is_some (str_validator j).

Definition required_fields : list string :=
  ["timestamp"; "version"; "type"; "tailnet"; "message"].



(** The request identifier a response shows in its body and in its
    headers. *)
Definition body_request_id (response : JSONResponse) : option json :=
  get "request_id" (members_of (content response)).

Fixpoint header_value (name : string) (hs : list (string * string)) : option string :=
  match hs with
  | [] => None
  | (k, v) :: rest => if String.eqb k name then Some v else header_value name rest
  end.

Definition carries_request_id (request_id : string) (response : JSONResponse) : Prop :=
  body_request_id response = Some (JString request_id) /\
  header_value "X-Request-ID" (headers response) = Some request_id.

(** Every event of the batch was delivered: vacuously so without a
    channel, otherwise [send] answered [True] for each payload in turn. *)
Definition all_delivered {W : Type} (channel : option (Channel W))
    (events : list TailscaleEvent.t) (w : W) : bool :=
  match channel with
  | None => true
  | Some c =>
      forallb delivered
        (deliveries c (map NotificationPayload.from_tailscale_event events) w)
  end.

(** The sample event of the specification, without its [data] member. *)
Definition sample_members : list (string * json) :=
  [("timestamp", JString "2024-01-15T10:30:00Z");
   ("version", JNumber "1");
   ("type", JString "node.created");
   ("tailnet", JString "example.com");
   ("message", JString "Node created")].

(** An event of the given type, and a channel without state whose [send]
    answers [how] for the events of type [bad] and succeeds for the
    others. *)
Definition sample_event (type : string) : TailscaleEvent.t :=
  TailscaleEvent.mk (mk_datetime 2024 1 15 10 30 0 0 (Some 0%Z)) 1 type
    "example.com" "Node created" [] [].

Definition failing_on (bad : string) (how : result bool) : Channel unit :=
  mk_channel (fun payload w =>
    (if String.eqb (NotificationPayload.event_type payload) bad
     then how else Return true, w)).

(** The body of the first end-to-end scenario of the specification. *)
Definition sample_body : bytes :=
  bytes_of_string (Reader.quoted
    "[{'timestamp':'2024-01-15T10:30:00Z','version':1,'type':'node.created','tailnet':'example.com','message':'Node created','data':{}}]").



(** A channel without state whose [send] always succeeds. *)
Definition reliable_channel : Channel unit :=
  mk_channel (fun _ w => (Return true, w)).

(** ** config.py: [Config.load] *)

(** [EnvGetter]: the value of a variable, or [None]. The values are taken
    with code points below 256, like the value of a header, so that [int]
    above applies to them. *)
Definition EnvGetter : Type := string -> option string.

(** What [Config.load] raises: [ValueError(message)] by its own [raise]
    statements, or an exception that comes out of [int] and that its
    [except ValueError] does not catch. *)
Inductive load_error : Type :=
| ValueErrorWith (message : string)
| Propagated (e : exn).

(** The code points of a [str] held as a [string]. *)
Definition code_points (s : string) : list N := map code (list_ascii_of_string s).

(** [Config.load(env_getter)], with [inl] for a raised exception. *)
Definition Config_load (env_getter : EnvGetter) : load_error + Config :=
  match env_getter "TAILSCALE_WEBHOOK_SECRET" with
  | None | Some EmptyString =>
      inl (ValueErrorWith "TAILSCALE_WEBHOOK_SECRET is required")
  | Some webhook_secret =>
      let tolerance_str :=
        match env_getter "WEBHOOK_TIMESTAMP_TOLERANCE_SECONDS" with
        | None | Some EmptyString => "300"
        | Some v => v
        end in
      let tolerance :=
        match py_int tolerance_str with
        | Return t => Return t
        | Raise ValueError => Return 300%Z
        | Raise e => Raise e
        end in
      match tolerance with
      | Raise e => inl (Propagated e)
      | Return tolerance =>
          match env_getter "TELEGRAM_BOT_TOKEN" with
          | None | Some EmptyString =>
              inl (ValueErrorWith "TELEGRAM_BOT_TOKEN is required")
          | Some bot_token =>
              match env_getter "TELEGRAM_CHAT_ID" with
              | None | Some EmptyString =>
                  inl (ValueErrorWith "TELEGRAM_CHAT_ID is required")
              | Some chat_id =>
                  inr (mk_config (code_points webhook_secret) bot_token chat_id
                         tolerance)
              end
          end
      end
  end.

(** [not v] for the value of a variable. *)
Definition unset (v : option string) : bool :=
  match v with
  | None | Some EmptyString => true
  | Some (String _ _) => false
  end.

(** An environment given by the four variables that [Config.load] reads. *)
Definition env_of (secret tolerance bot_token chat_id : option string) : EnvGetter :=
  fun name =>
    if String.eqb name "TAILSCALE_WEBHOOK_SECRET" then secret
    else if String.eqb name "WEBHOOK_TIMESTAMP_TOLERANCE_SECONDS" then tolerance
    else if String.eqb name "TELEGRAM_BOT_TOKEN" then bot_token
    else if String.eqb name "TELEGRAM_CHAT_ID" then chat_id
    else None.

(** ** telegram.py

    A [str] decoded from the JSON body is held as its UTF-8 bytes, so that
    texts with any character fit in a [string]; [len] and slicing count
    code points, that is the bytes that are not continuation bytes.

    The httpx layer is the outside world of the channel. The world is the
    trace of what was done to it, oldest first; what it answers is given by
    two functions of the trace, about which nothing is assumed. *)

Module Telegram.

Local Open Scope string_scope.

Definition TELEGRAM_API_URL : string := "https://api.telegram.org".

(** The arguments of [client.post(url, json={...})]. *)
Record Request : Type := mk_request {
  url : string;
  chat_id_of : string;
  text : string;
  parse_mode : string
}.

(** What awaiting [client.post] gives: a response, an [httpx.RequestError]
    or another [Exception]. *)
Inductive post_outcome : Type :=
| Responded (status_code : Z) (response_text : string)
| RaisedRequestError
| RaisedOther.

Inductive http_event : Type :=
| Created (client : nat)
| Posted (client : nat) (request : Request)
| Closed (client : nat).

Definition trace : Type := list http_event.

(** [creation]: the exception, if any, that [httpx.AsyncClient(timeout=10.0)]
    raises; [answer]: the outcome of a POST. *)
Class Httpx : Type := {
  creation : trace -> option exn;
  answer : trace -> nat -> Request -> post_outcome
}.

(** Python's [str(value)] for a decoded JSON value that is not a [str]. *)
Class Builtins : Type := {
  str_of_value : json -> string
}.

Record TelegramNotificationChannel : Type := mk {
  bot_token : string;
  chat_id : string;
  http_client : option nat;
  _owns_client : bool
}.

(** [__init__(bot_token, chat_id, http_client=None)] *)
Definition init (bot_token chat_id : string) (http_client : option nat)
  : TelegramNotificationChannel :=
  mk bot_token chat_id http_client
     (match http_client with None => true | Some _ => false end).

(** [_get_client]: the client of the channel, made on first use. A new
    client is named by the length of the trace. *)
Definition _get_client `{Httpx} (self : TelegramNotificationChannel) (tr : trace)
  : result nat * TelegramNotificationChannel * trace :=
  match http_client self with
  | None =>
      match creation tr with
      | Some e => (Raise e, self, tr)
      | None =>
          let client := List.length tr in
          (Return client,
           mk (bot_token self) (chat_id self) (Some client) (_owns_client self),
           (tr ++ [Created client])%list)
      end
  | Some client => (Return client, self, tr)
  end.

(** [close] *)
Definition close (self : TelegramNotificationChannel) (tr : trace) : trace :=
  match http_client self with
  | Some client => if _owns_client self then (tr ++ [Closed client])%list else tr
  | None => tr
  end.

(** *** Texts *)

Definition newline : string := String (ascii_of_N 10) EmptyString.

(** [sep.join(lines)] *)
Fixpoint join (sep : string) (lines : list string) : string :=
  match lines with
  | [] => EmptyString
  | [line] => line
  | line :: rest => line ++ sep ++ join sep rest
  end.

Definition is_continuation (c : ascii) : bool :=
  ((128 <=? code c) && (code c <? 192))%N.

(** [len(s)] *)
Fixpoint len (s : string) : nat :=
  match s with
  | EmptyString => O
  | String c s' => if is_continuation c then len s' else S (len s')
  end.

(** [s[:n]] *)
Fixpoint take (n : nat) (s : string) : string :=
  match s with
  | EmptyString => EmptyString
  | String c s' =>
      if is_continuation c then String c (take n s')
      else match n with
           | O => EmptyString
           | S n' => String c (take n' s')
           end
  end.

(** ["%0<width>d" % n] for [n >= 0]. *)
Definition zero_padded (width : nat) (n : Z) : string :=
  let digits := py_str n in
  string_of_list_ascii (repeat "0"%char (width - String.length digits)) ++ digits.

(** [datetime.isoformat()] *)
Definition isoformat (d : datetime) : string :=
  zero_padded 4 (year d) ++ "-" ++ zero_padded 2 (month d) ++ "-"
  ++ zero_padded 2 (day d) ++ "T" ++ zero_padded 2 (hour d) ++ ":"
  ++ zero_padded 2 (minute d) ++ ":" ++ zero_padded 2 (second d)
  ++ (if (microsecond d =? 0)%Z then EmptyString
      else "." ++ zero_padded 6 (microsecond d))
  ++ match utcoffset d with
     | None => EmptyString
     | Some off =>
         let a := Z.abs off in
         (if (off <? 0)%Z then "-" else "+")
         ++ zero_padded 2 (a / 3600) ++ ":" ++ zero_padded 2 ((a mod 3600) / 60)
         ++ (if (a mod 60 =? 0)%Z then EmptyString
             else ":" ++ zero_padded 2 (a mod 60))
     end.

(** [d[key] = value] on a dict held as the list of its items. *)
Fixpoint dict_set (key : string) (value : json) (d : list (string * json))
  : list (string * json) :=
  match d with
  | [] => [(key, value)]
  | (k, v) :: rest =>
      if String.eqb k key then (k, value) :: rest
      else (k, v) :: dict_set key value rest
  end.

(** [raw_data.items()]: the members in the order of their first
    occurrence, each with its last value. *)
Definition items (members : list (string * json)) : list (string * json) :=
  fold_left (fun d kv => dict_set (fst kv) (snd kv) d) members [].

(** The value of a detail as it is shown: cut to 97 characters and three
    dots when it has more than 100. *)
Definition shown_value `{Builtins} (value : json) : string :=
  let value_str :=
    match value with
    | JString s => s
    | _ => str_of_value value
    end in
  if (100 <? len value_str)%nat then take 97 value_str ++ "..." else value_str.

Definition detail_line `{Builtins} (kv : string * json) : string :=
  "  " ++ fst kv ++ ": <code>" ++ shown_value (snd kv) ++ "</code>".

Definition header_lines (payload : NotificationPayload.t) : list string :=
  ["🔔 <b>Tailscale Event</b>";
   EmptyString;
   "<b>Type:</b> <code>" ++ NotificationPayload.event_type payload ++ "</code>";
   "<b>Tailnet:</b> " ++ NotificationPayload.tailnet payload;
   "<b>Message:</b> " ++ NotificationPayload.event_message payload;
   "<b>Time:</b> " ++ isoformat (NotificationPayload.timestamp payload)].

Definition _format_message `{Builtins} (payload : NotificationPayload.t) : string :=
  let lines := header_lines payload in
  let raw_data := NotificationPayload.raw_data payload in
  let lines :=
    match raw_data with
    | [] => lines
    | _ :: _ =>
        (lines ++ [EmptyString; "<b>Details:</b>"])%list
        ++ map detail_line (items raw_data)
    end%list in
  join newline lines.

(** The request of [send] for a payload. *)
Definition request_for `{Builtins} (self : TelegramNotificationChannel)
    (payload : NotificationPayload.t) : Request :=
  mk_request (TELEGRAM_API_URL ++ "/bot" ++ bot_token self ++ "/sendMessage")
             (chat_id self) (_format_message payload) "HTML".

(** [send]: the client first, outside the [try]; then the POST, of which
    every failure is turned into [False]. *)
Definition send `{Httpx} `{Builtins} (self : TelegramNotificationChannel)
    (payload : NotificationPayload.t) (tr : trace)
  : result bool * TelegramNotificationChannel * trace :=
  match _get_client self tr with
  | (Raise e, self', tr') => (Raise e, self', tr')
  | (Return client, self', tr') =>
      let request := request_for self' payload in
      let tr'' := (tr' ++ [Posted client request])%list in
      match answer tr' client request with
      | Responded status_code _ =>
          if (status_code =? 200)%Z then (Return true, self', tr'')
          else (Return false, self', tr'')
      | RaisedRequestError => (Return false, self', tr'')
      | RaisedOther => (Return false, self', tr'')
      end
  end.

(** The channel object as the processor sees it: its fields are part of
    the world, since [send] assigns [http_client]. *)
Definition channel `{Httpx} `{Builtins} : Channel (TelegramNotificationChannel * trace) :=
  mk_channel (fun payload st =>
    let '(r, self', tr') := send (fst st) payload (snd st) in
    (r, (self', tr'))).

End Telegram.

(** ** app.py: [create_app] and [lifespan] *)

(** [create_app(env_getter)]: the application state and the channel object
    it holds, or what [Config.load] raised. *)
Definition create_app `{Telegram.Httpx} `{Telegram.Builtins} (env_getter : EnvGetter)
  : load_error
    + (AppState (Telegram.TelegramNotificationChannel * Telegram.trace)
       * Telegram.TelegramNotificationChannel) :=
  match Config_load env_getter with
  | inl e => inl e
  | inr config =>
      let telegram_channel :=
        Telegram.init (telegram_bot_token config) (telegram_chat_id config) None in
      inr (mk_app config (Some Telegram.channel), telegram_channel)
  end.

(** The shutdown half of [lifespan]. *)
Definition lifespan_shutdown (telegram_channel : option Telegram.TelegramNotificationChannel)
    (tr : Telegram.trace) : Telegram.trace :=
  match telegram_channel with
  | Some channel => Telegram.close channel tr
  | None => tr
  end.

(** Instances for the examples: [str] of the scalar values, a network in
    which a client can always be made, and which answers 200 unless the text
    mentions a deleted node. *)
Definition scalar_str : Telegram.Builtins :=
  {| Telegram.str_of_value := fun value =>
       match value with
       | JNull => "None"
       | JBool true => "True"
       | JBool false => "False"
       | JNumber literal => literal
       | _ => EmptyString
       end |}.

Fixpoint mentions (word s : string) : bool :=
  match s with
  | EmptyString => String.prefix word s
  | String _ s' => String.prefix word s || mentions word s'
  end.

Definition sample_network : Telegram.Httpx :=
  {| Telegram.creation := fun _ => None;
     Telegram.answer := fun _ _ request =>
       if mentions "node.deleted" (Telegram.text request)
       then Telegram.Responded 400 "Bad Request"
       else Telegram.Responded 200 "ok" |}.

(** A network that answers 200 to every POST. *)
Definition reliable_network : Telegram.Httpx :=
  {| Telegram.creation := fun _ => None;
     Telegram.answer := fun _ _ _ => Telegram.Responded 200 "ok" |}.

(** ** Vocabulary of the further properties *)

Definition is_lower_hex (c : ascii) : bool :=
  ((48 <=? code c) && (code c <=? 57) || (97 <=? code c) && (code c <=? 102))%N.

(** [all(p(c) for c in s)] *)
Fixpoint all_chars (p : ascii -> bool) (s : string) : bool :=
  match s with
  | EmptyString => true
  | String c s' => p c && all_chars p s'
  end.

(** A part that starts with [t=] and whose value [int] refuses. *)
Definition bad_timestamp_part (part : string) : bool :=
  startswith "t=" part &&
  match py_int (drop 2 part) with Return _ => false | Raise _ => true end.

(** The integers of the [t=] parts and the values of the [v1=] parts, in
    the order of the header. *)
Definition timestamp_values (parts : list string) : list Z :=
  flat_map (fun part =>
    if startswith "t=" part then
      match py_int (drop 2 part) with Return t => [t] | Raise _ => [] end
    else []) parts.

Definition signature_values (parts : list string) : list string :=
  map (drop 3)
      (filter (fun part => negb (startswith "t=" part) && startswith "v1=" part) parts).

(** The last element of a list, if it has one. *)
Definition last_of {A : Type} (l : list A) : option A := last (map Some l) None.

(** Whether a POST was answered with status 200. *)
Definition succeeded (outcome : Telegram.post_outcome) : bool :=
  match outcome with
  | Telegram.Responded status_code _ => (status_code =? 200)%Z
  | _ => false
  end.

(** The POSTs of a batch through the client [client]. *)
Definition posts_of `{Telegram.Builtins} (self : Telegram.TelegramNotificationChannel)
    (client : nat) (events : list TailscaleEvent.t) : Telegram.trace :=
  map (fun event =>
         Telegram.Posted client
           (Telegram.request_for self (NotificationPayload.from_tailscale_event event)))
      events.

(** ** The interpreter's limit on the digits of an integer

    By default CPython refuses a decimal literal of more than 4300 digits in
    [int], with a [ValueError], and an integer of more than 4300 digits in
    [str] ([sys.get_int_max_str_digits()]). [py_int] and [py_str] are the
    two built-ins without this limit and agree with the interpreter within
    it: the further properties that range over every integer, or over every
    header, are stated within the limit. *)
Definition int_max_str_digits : Z := 4300.

(** [n] is written with at most [int_max_str_digits] decimal digits. *)
Definition within_digit_limit (n : Z) : Prop :=
  (Z.abs n < 10 ^ int_max_str_digits)%Z.

(** A text too short to hold a literal beyond the limit. *)
Definition below_digit_limit (s : string) : Prop :=
  (Z.of_nat (String.length s) <= int_max_str_digits)%Z.

(** ** pydantic's lax conversions

    The models do not set [strict], so that their fields are validated in
    pydantic's default, lax mode, in which the [int] and [datetime]
    validators also convert values of another JSON type. This instance adds
    to [Reader.pydantic] the conversions of JSON input that the repository
    relies on or that are the plainest: for [int] a string that [int] reads,
    a number with a fraction of zeros and a boolean; for [datetime] an
    integer as Unix time, in seconds up to 2e10 in absolute value and in
    milliseconds beyond, and days checked against the calendar. pydantic
    accepts more than these (other date formats, offsets, fractions of a
    second); the theorems do not depend on this instance. *)

Module Lax.

Local Open Scope Z_scope.

Definition of_result {A : Type} (r : result A) : option A :=
  match r with Return a => Some a | Raise _ => None end.

Definition integer (j : json) : option Z :=
  match j with
  | JNumber literal =>
      match split "." literal with
      | [whole] => of_result (py_int whole)
      | [whole; fraction] =>
          if all_chars (Ascii.eqb "0") fraction then of_result (py_int whole) else None
      | _ => None
      end
  | JString s => of_result (py_int s)
  | JBool b => Some (if b then 1 else 0)
  | _ => None
  end.

Definition is_leap (y : Z) : bool :=
  (y mod 4 =? 0) && (negb (y mod 100 =? 0) || (y mod 400 =? 0)).

Definition days_in_month (y m : Z) : Z :=
  if m =? 2 then (if is_leap y then 29 else 28)
  else if (m =? 4) || (m =? 6) || (m =? 9) || (m =? 11) then 30
  else 31.

(** The date of the day that comes [days] days after 1970-01-01, in the
    proleptic Gregorian calendar. The count runs in years that start on the
    first of March, in eras of 400 years. *)
Definition civil_from_days (days : Z) : Z * Z * Z :=
  let z := days + 719468 in
  let era := z / 146097 in
  let day_of_era := z mod 146097 in
  let year_of_era :=
    (day_of_era - day_of_era / 1460 + day_of_era / 36524 - day_of_era / 146096) / 365 in
  let day_of_year :=
    day_of_era - (365 * year_of_era + year_of_era / 4 - year_of_era / 100) in
  let mp := (5 * day_of_year + 2) / 153 in
  let d := day_of_year - (153 * mp + 2) / 5 + 1 in
  let m := if mp <? 10 then mp + 3 else mp - 9 in
  let y := year_of_era + era * 400 in
  (if m <=? 2 then y + 1 else y, m, d).

(** Unix time as an aware [datetime] in UTC; [None] outside the years 1 to
    9999. *)
Definition of_timestamp (n : Z) : option datetime :=
  let '(seconds, micro) :=
    if Z.abs n <=? 20000000000 then (n, 0) else (n / 1000, (n mod 1000) * 1000) in
  let second_of_day := seconds mod 86400 in
  let '(y, m, d) := civil_from_days (seconds / 86400) in
  if (1 <=? y) && (y <=? 9999) then
    Some (mk_datetime y m d (second_of_day / 3600) (second_of_day mod 3600 / 60)
            (second_of_day mod 60) micro (Some 0))
  else None.

Definition utc_datetime (j : json) : option datetime :=
  match j with
  | JString _ =>
      match Reader.utc_datetime j with
      | Some d =>
          if (1 <=? year d) && (day d <=? days_in_month (year d) (month d))
          then Some d else None
      | None => None
      end
  | JNumber literal =>
      match py_int literal with
      | Return n => of_timestamp n
      | Raise _ => None
      end
  | _ => None
  end.

Definition pydantic : PydanticCore :=
  {| json_loads := Reader.loads;
     int_validator := integer;
     datetime_validator := utc_datetime |}.

End Lax.

(** ** The rule of decoding read with the JSON types *)







(** * Properties *)

(** ** Strings *)

Lemma split_without_separator (sep : ascii) (s : string) :
  char_in sep s = false -> split sep s = [s].
Proof.
  induction s as [|c s IH]; simpl; intros H; [reflexivity|].
  apply orb_false_iff in H. destruct H as [Hc Hs].
  rewrite Hc, (IH Hs). reflexivity.
Qed.

Lemma split_at_separator (sep : ascii) (a b : string) :
  char_in sep a = false ->
  split sep (a ++ String sep b)%string = a :: split sep b.
Proof.
  induction a as [|c a IH]; simpl; intros H.
  - rewrite Ascii.eqb_refl. reflexivity.
  - apply orb_false_iff in H. destruct H as [Hc Ha].
    rewrite Hc, (IH Ha). reflexivity.
Qed.

Lemma char_in_append (c : ascii) (a b : string) :
  char_in c (a ++ b)%string = char_in c a || char_in c b.
Proof.
  induction a as [|x a IH]; simpl; [reflexivity|].
  rewrite IH. apply orb_assoc.
Qed.

Lemma isascii_append (a b : string) :
  isascii (a ++ b)%string = isascii a && isascii b.
Proof.
  induction a as [|x a IH]; simpl; [reflexivity|].
  rewrite IH. apply andb_assoc.
Qed.

(** A hexadecimal rendering is ASCII and holds no comma. *)
Lemma hex_of_byte_plain (b : byte) :
  isascii (hex_of_byte b) = true /\ char_in "," (hex_of_byte b) = false.
Proof. destruct b; split; reflexivity. Qed.

Lemma hex_plain (bs : bytes) :
  isascii (hex bs) = true /\ char_in "," (hex bs) = false.
Proof.
  induction bs as [|b bs [IHa IHc]]; cbn [hex]; [split; reflexivity|].
  destruct (hex_of_byte_plain b) as [Ha Hc].
  rewrite isascii_append, char_in_append, Ha, Hc, IHa, IHc. split; reflexivity.
Qed.

Lemma compute_signature_plain (timestamp : Z) (body secret : bytes) :
  isascii (compute_signature timestamp body secret) = true /\
  char_in "," (compute_signature timestamp body secret) = false.
Proof. unfold compute_signature, HMAC.hexdigest. apply hex_plain. Qed.

(** ** [str] and [int] *)

Import DecimalString.

Lemma string_of_uint_plain (u : Decimal.uint) :
  isascii (NilEmpty.string_of_uint u) = true /\
  char_in "," (NilEmpty.string_of_uint u) = false.
Proof.
  induction u as [|u [Ha Hc]|u [Ha Hc]|u [Ha Hc]|u [Ha Hc]|u [Ha Hc]
                  |u [Ha Hc]|u [Ha Hc]|u [Ha Hc]|u [Ha Hc]|u [Ha Hc]];
    simpl; try (rewrite Ha, Hc); split; reflexivity.
Qed.

Lemma py_str_plain (n : Z) :
  isascii (py_str n) = true /\ char_in "," (py_str n) = false.
Proof.
  unfold py_str. destruct (Z.to_int n) as [u|u]; simpl.
  - apply string_of_uint_plain.
  - destruct (string_of_uint_plain u) as [Ha Hc]. rewrite Ha, Hc. split; reflexivity.
Qed.

Lemma digits_run_string_of_uint (u : Decimal.uint) (prev : ascii) :
  is_underscore prev = false ->
  digits_run (NilEmpty.string_of_uint u) prev = Some (u, EmptyString).
Proof.
  revert prev.
  induction u as [|u IH|u IH|u IH|u IH|u IH|u IH|u IH|u IH|u IH|u IH];
    intros prev Hprev; simpl.
  - rewrite Hprev. reflexivity.
  - change (digit_of_ascii "0") with (Some Decimal.D0). rewrite IH; reflexivity.
  - change (digit_of_ascii "1") with (Some Decimal.D1). rewrite IH; reflexivity.
  - change (digit_of_ascii "2") with (Some Decimal.D2). rewrite IH; reflexivity.
  - change (digit_of_ascii "3") with (Some Decimal.D3). rewrite IH; reflexivity.
  - change (digit_of_ascii "4") with (Some Decimal.D4). rewrite IH; reflexivity.
  - change (digit_of_ascii "5") with (Some Decimal.D5). rewrite IH; reflexivity.
  - change (digit_of_ascii "6") with (Some Decimal.D6). rewrite IH; reflexivity.
  - change (digit_of_ascii "7") with (Some Decimal.D7). rewrite IH; reflexivity.
  - change (digit_of_ascii "8") with (Some Decimal.D8). rewrite IH; reflexivity.
  - change (digit_of_ascii "9") with (Some Decimal.D9). rewrite IH; reflexivity.
Qed.

(** The literal of an unsigned number with at least one digit. *)
Lemma py_int_unsigned (u : Decimal.uint) :
  u <> Decimal.Nil ->
  py_int (NilEmpty.string_of_uint u) = Return (Z.of_uint u).
Proof.
  intros Hu. unfold py_int.
  destruct (string_of_uint_plain u) as [Ha _]. rewrite Ha.
  destruct u; try congruence; simpl NilEmpty.string_of_uint;
    cbn [skip_spaces py_isspace]; simpl;
    rewrite digits_run_string_of_uint by reflexivity; reflexivity.
Qed.

Lemma py_int_negative (u : Decimal.uint) :
  u <> Decimal.Nil ->
  py_int (String "-" (NilEmpty.string_of_uint u)) = Return (- Z.of_uint u)%Z.
Proof.
  intros Hu. unfold py_int.
  destruct (string_of_uint_plain u) as [Ha _].
  change (isascii (String "-" (NilEmpty.string_of_uint u)))
    with (isascii (NilEmpty.string_of_uint u)).
  rewrite Ha.
  destruct u; try congruence; simpl NilEmpty.string_of_uint; simpl;
    rewrite digits_run_string_of_uint by reflexivity; reflexivity.
Qed.

(** [int(str(n)) == n] *)
Lemma py_int_py_str (n : Z) : py_int (py_str n) = Return n.
Proof.
  unfold py_str.
  rewrite <- (DecimalZ.of_to n) at 2.
  destruct n as [|p|p]; simpl Z.to_int; simpl NilEmpty.string_of_int.
  - reflexivity.
  - rewrite py_int_unsigned by apply Unsigned.to_uint_nonnil. reflexivity.
  - rewrite py_int_negative by apply Unsigned.to_uint_nonnil. reflexivity.
Qed.

(** ** [parse_signature_header] *)

(** [int] raises nothing but [ValueError]. *)
Lemma py_int_raises (s : string) (e : exn) : py_int s = Raise e -> e = ValueError.
Proof.
  unfold py_int.
  destruct (skip_spaces (if isascii s then s else transform_decimal_and_space s))
    as [|c r]; [|destruct c as [[] [] [] [] [] [] [] []]]; simpl;
  repeat match goal with
  | |- Raise _ = Raise _ -> _ => intros H; injection H as <-; reflexivity
  | |- Return _ = Raise _ -> _ => discriminate
  | |- context [match ?x with _ => _ end] => destruct x
  | |- context [if ?x then _ else _] => destruct x
  end.
Qed.

Lemma parse_parts_raises (parts : list string) (ts : option Z) (sig : option string)
    (e : exn) :
  parse_parts parts ts sig = Raise e -> e = ValueError.
Proof.
  revert ts sig. induction parts as [|part rest IH]; cbn [parse_parts]; intros ts sig H.
  - discriminate.
  - destruct (startswith "t=" part).
    + destruct (py_int (drop 2 part)) eqn:Hint; cbn [bind] in H.
      * eapply IH; eassumption.
      * injection H as <-. eapply py_int_raises; eassumption.
    + destruct (startswith "v1=" part); eapply IH; eassumption.
Qed.

(** The parser never raises: a [ValueError] of the loop is caught. *)
Lemma parse_signature_header_returns (h : string) :
  exists parsed, parse_signature_header h = Return parsed.
Proof.
  unfold parse_signature_header.
  destruct (parse_parts (split "," h) None None) as [[[t|] [s|]]|e] eqn:H;
    try (eexists; reflexivity).
  apply parse_parts_raises in H. subst e. eexists; reflexivity.
Qed.

(** Without a [t=] part the timestamp stays what it was. *)
Lemma parse_parts_without_timestamp (parts : list string) (ts : option Z)
    (sig : option string) :
  Forall (fun part => startswith "t=" part = false) parts ->
  exists sig', parse_parts parts ts sig = Return (ts, sig').
Proof.
  intros H. revert sig. induction H as [|part rest Hp _ IH]; cbn [parse_parts]; intros sig.
  - eexists; reflexivity.
  - rewrite Hp. destruct (startswith "v1=" part); apply IH.
Qed.

(** Without a [v1=] part the signature stays what it was. *)
Lemma parse_parts_without_signature (parts : list string) (ts : option Z)
    (sig : option string) :
  Forall (fun part => startswith "v1=" part = false) parts ->
  parse_parts parts ts sig = Raise ValueError \/
  exists ts', parse_parts parts ts sig = Return (ts', sig).
Proof.
  intros H. revert ts. induction H as [|part rest Hp _ IH]; cbn [parse_parts]; intros ts.
  - right. eexists; reflexivity.
  - rewrite Hp. destruct (startswith "t=" part); [|apply IH].
    destruct (py_int (drop 2 part)) as [t|e] eqn:Hint; cbn [bind]; [apply IH|].
    left. f_equal. eapply py_int_raises; eassumption.
Qed.

(** One [t=] part that is not an integer makes the loop raise, wherever it
    stands. *)
Lemma parse_parts_bad_timestamp (parts : list string) (ts : option Z)
    (sig : option string) :
  Exists (fun part => startswith "t=" part = true /\
                      py_int (drop 2 part) = Raise ValueError) parts ->
  parse_parts parts ts sig = Raise ValueError.
Proof.
  intros H. revert ts sig.
  induction H as [part rest [Hp Hint]|part rest _ IH]; cbn [parse_parts]; intros ts sig.
  - rewrite Hp, Hint. reflexivity.
  - destruct (startswith "t=" part).
    + destruct (py_int (drop 2 part)) as [t|e] eqn:Hint; cbn [bind]; [apply IH|].
      f_equal. eapply py_int_raises; eassumption.
    + destruct (startswith "v1=" part); apply IH.
Qed.

Lemma verify_signature_unparsed (now : Z) (h : string) (body secret : bytes) (tol : Z) :
  parse_signature_header h = Return (None, None) ->
  verify_signature now h body secret tol = Return false.
Proof. intros H. unfold verify_signature. rewrite H. reflexivity. Qed.

(** ** A header signed by the sender *)

Lemma parse_signed_header (timestamp : Z) (signature : string) :
  char_in "," signature = false ->
  parse_signature_header (signature_header_of timestamp signature)
  = Return (Some signature, Some timestamp).
Proof.
  intros Hsig. unfold parse_signature_header, signature_header_of.
  change ("t=" ++ py_str timestamp ++ ",v1=" ++ signature)%string
    with (("t=" ++ py_str timestamp) ++ String "," ("v1=" ++ signature))%string.
  rewrite split_at_separator.
  2:{ rewrite char_in_append. destruct (py_str_plain timestamp) as [_ ->]. reflexivity. }
  rewrite split_without_separator by exact Hsig.
  cbn [parse_parts]. change (startswith "t=" ("t=" ++ py_str timestamp)) with
    (startswith EmptyString (py_str timestamp)).
  replace (startswith EmptyString (py_str timestamp)) with true
    by (destruct (py_str timestamp); reflexivity).
  change (drop 2 ("t=" ++ py_str timestamp)) with (py_str timestamp).
  rewrite py_int_py_str. cbn [bind]. simpl.
  destruct signature; reflexivity.
Qed.

Lemma compare_digest_same (s : string) :
  isascii s = true -> compare_digest s s = Return true.
Proof.
  intros H. unfold compare_digest. rewrite H, String.eqb_refl. reflexivity.
Qed.

(** Verification of a header signed with the same secret over the same
    body comes down to the freshness of its timestamp. *)
Lemma verify_signed_header (now timestamp : Z) (body secret : bytes) (tol : Z) :
  verify_signature now
    (signature_header_of timestamp (compute_signature timestamp body secret))
    body secret tol
  = Return (validate_timestamp now timestamp tol).
Proof.
  destruct (compute_signature_plain timestamp body secret) as [Ha Hc].
  unfold verify_signature.
  rewrite parse_signed_header by exact Hc. cbn [bind].
  destruct (validate_timestamp now timestamp tol); cbn [negb]; [|reflexivity].
  rewrite compare_digest_same by exact Ha. reflexivity.
Qed.

Lemma validate_timestamp_spec (now timestamp tol : Z) :
  validate_timestamp now timestamp tol = true <->
  (0 <= now - timestamp <= tol)%Z.
Proof.
  unfold validate_timestamp.
  destruct (Z.ltb_spec (now - timestamp) 0); [split; [discriminate|lia]|].
  destruct (now - timestamp >? tol)%Z eqn:E.
  - split; [discriminate|]. apply Z.gtb_lt in E. lia.
  - split; [|reflexivity]. intros _. rewrite Z.gtb_ltb in E. apply Z.ltb_ge in E. lia.
Qed.

(** ** Signature verification *)

(** C1, as the specification states it, fails: a header signed one second
    ahead of the clock has [|now - timestamp| = 1 <= 300], and verification
    of it returns [False]. *)
Lemma signature_correctness_future_rejected :
  (Z.abs (1705316400 - 1705316401) <= 300)%Z /\
  verify_signature 1705316400
    (signature_header_of 1705316401
       (compute_signature 1705316401 (bytes_of_string "[]") (bytes_of_string "s")))
    (bytes_of_string "[]") (bytes_of_string "s") 300
  = Return false.
Proof. split; [vm_compute; discriminate | vm_compute; reflexivity]. Qed.

(** C1 (amended): for every secret, timestamp and body, verifying the header
    [t=<timestamp>,v1=<s>], with [s] the lowercase hexadecimal HMAC-SHA256 of
    the decimal timestamp, a dot and the raw body under the secret, against
    the same body, secret and tolerance [T], returns [True] whenever
    [0 <= now - timestamp <= T]. *)
Theorem signed_header_verifies_within_window
    (secret : bytes) (timestamp : Z) (body : bytes) (now T : Z) :
  (0 <= now - timestamp <= T)%Z ->
  verify_signature now
    (signature_header_of timestamp (compute_signature timestamp body secret))
    body secret T
  = Return true.
Proof.
  intros H. rewrite verify_signed_header. f_equal.
  apply validate_timestamp_spec. exact H.
Qed.

Lemma signed_header_verifies_within_window_witness :
  verify_signature 1705316400
    (signature_header_of 1705316390
       (compute_signature 1705316390 (bytes_of_string "[]") (bytes_of_string "s")))
    (bytes_of_string "[]") (bytes_of_string "s") 300
  = Return true.
Proof.
  apply (signed_header_verifies_within_window
           (bytes_of_string "s") 1705316390 (bytes_of_string "[]") 1705316400 300).
  lia.
Defined.

(** C3: freshness is an inclusive window without allowance for the future.
    For every tolerance [T >= 0], a validly signed header is rejected at
    [timestamp = now - (T + 1)], accepted at [timestamp = now - T] and
    rejected at [timestamp = now + 1]. *)
Theorem replay_window (now T : Z) (body secret : bytes) :
  (0 <= T)%Z ->
  verify_signature now
    (signature_header_of (now - (T + 1))
       (compute_signature (now - (T + 1)) body secret)) body secret T
  = Return false /\
  verify_signature now
    (signature_header_of (now - T) (compute_signature (now - T) body secret))
    body secret T
  = Return true /\
  verify_signature now
    (signature_header_of (now + 1) (compute_signature (now + 1) body secret))
    body secret T
  = Return false.
Proof.
  intros HT. rewrite !verify_signed_header.
  repeat split; f_equal.
  - destruct (validate_timestamp now (now - (T + 1)) T) eqn:E; [|reflexivity].
    apply validate_timestamp_spec in E. lia.
  - apply validate_timestamp_spec. lia.
  - destruct (validate_timestamp now (now + 1) T) eqn:E; [|reflexivity].
    apply validate_timestamp_spec in E. lia.
Qed.

Lemma replay_window_witness :
  verify_signature 1000
    (signature_header_of (1000 - (0 + 1))
       (compute_signature (1000 - (0 + 1)) [] (bytes_of_string "s")))
    [] (bytes_of_string "s") 0
  = Return false /\
  verify_signature 1000
    (signature_header_of (1000 - 0) (compute_signature (1000 - 0) [] (bytes_of_string "s")))
    [] (bytes_of_string "s") 0
  = Return true /\
  verify_signature 1000
    (signature_header_of (1000 + 1) (compute_signature (1000 + 1) [] (bytes_of_string "s")))
    [] (bytes_of_string "s") 0
  = Return false.
Proof. apply (replay_window 1000 0 [] (bytes_of_string "s")). lia. Defined.

(** C6: a header without a [t=] part, without a [v1=] part, with a [t=] part
    whose value is not an integer, or without any part the parser knows, is
    parsed to [(None, None)] and verified to [False]; both are returned, no
    exception leaves either function. *)
Theorem malformed_header_rejected
    (now : Z) (h : string) (body secret : bytes) (T : Z) :
  Forall (fun part => startswith "t=" part = false) (split "," h) \/
  Forall (fun part => startswith "v1=" part = false) (split "," h) \/
  Exists (fun part => startswith "t=" part = true /\
                      py_int (drop 2 part) = Raise ValueError) (split "," h) \/
  Forall (fun part => startswith "t=" part = false /\
                      startswith "v1=" part = false) (split "," h) ->
  parse_signature_header h = Return (None, None) /\
  verify_signature now h body secret T = Return false.
Proof.
  intros H.
  assert (Hparse : parse_signature_header h = Return (None, None)).
  { unfold parse_signature_header.
    destruct H as [H|[H|[H|H]]].
    - destruct (parse_parts_without_timestamp _ None None H) as [sig' ->].
      reflexivity.
    - destruct (parse_parts_without_signature _ None None H) as [->|[ts' ->]];
        [reflexivity|destruct ts'; reflexivity].
    - rewrite parse_parts_bad_timestamp by exact H. reflexivity.
    - assert (H' : Forall (fun part => startswith "t=" part = false) (split "," h)).
      { eapply Forall_impl; [|exact H]. intros part [Hp _]. exact Hp. }
      destruct (parse_parts_without_timestamp _ None None H') as [sig' ->].
      reflexivity. }
  split; [exact Hparse|]. apply verify_signature_unparsed. exact Hparse.
Qed.

Lemma malformed_header_rejected_witness :
  parse_signature_header "v1=abc123def456" = Return (None, None) /\
  verify_signature 1705316400 "v1=abc123def456" (bytes_of_string "[]")
    (bytes_of_string "s") 300 = Return false.
Proof.
  apply (malformed_header_rejected 1705316400 "v1=abc123def456"
           (bytes_of_string "[]") (bytes_of_string "s") 300).
  left. simpl. repeat constructor.
Defined.

(** C9: when some part of the header starts with [t=] and what follows is
    not a base-10 integer, parsing gives [(None, None)] and verification
    [False], whatever the other parts are: another part with a valid [t=]
    integer and a part with a valid [v1=] signature do not help. *)
Theorem bad_timestamp_part_aborts (h part : string) :
  In part (split "," h) ->
  startswith "t=" part = true ->
  py_int (drop 2 part) = Raise ValueError ->
  parse_signature_header h = Return (None, None) /\
  forall (now : Z) (body secret : bytes) (T : Z),
    verify_signature now h body secret T = Return false.
Proof.
  intros Hin Hp Hint.
  assert (Hparse : parse_signature_header h = Return (None, None)).
  { unfold parse_signature_header.
    rewrite parse_parts_bad_timestamp; [reflexivity|].
    apply Exists_exists. exists part. auto. }
  split; [exact Hparse|]. intros. apply verify_signature_unparsed. exact Hparse.
Qed.

Lemma bad_timestamp_part_aborts_witness :
  parse_signature_header
    (signature_header_of 1705316400
       (compute_signature 1705316400 [] (bytes_of_string "s")) ++ ",t=soon")
  = Return (None, None) /\
  forall (now : Z) (body secret : bytes) (T : Z),
    verify_signature now
      (signature_header_of 1705316400
         (compute_signature 1705316400 [] (bytes_of_string "s")) ++ ",t=soon")
      body secret T
    = Return false.
Proof.
  apply (bad_timestamp_part_aborts _ "t=soon").
  - vm_compute. right. right. left. reflexivity.
  - reflexivity.
  - reflexivity.
Defined.

(** ** The dispatch loop *)

Lemma process_loop_result {W : Type} (channel : Channel W)
    (events : list TailscaleEvent.t) (all_success : bool) (w : W) :
  fst (process_loop (send channel) events all_success w)
  = all_success &&
    forallb delivered
      (deliveries channel (map NotificationPayload.from_tailscale_event events) w).
Proof.
  revert all_success w.
  induction events as [|event rest IH]; intros all_success w; cbn -[delivered].
  - symmetry. apply andb_true_r.
  - destruct (send channel (NotificationPayload.from_tailscale_event event) w)
      as [[[|]|e] w']; cbn [negb forallb delivered]; rewrite IH.
    + reflexivity.
    + rewrite andb_false_r. reflexivity.
    + rewrite andb_false_r. reflexivity.
Qed.

Lemma process_webhook_events_result {W : Type} (channel : option (Channel W))
    (events : list TailscaleEvent.t) (w : W) :
  fst (process_webhook_events events channel w) = all_delivered channel events w.
Proof.
  destruct channel as [c|]; [|reflexivity].
  unfold process_webhook_events, all_delivered. rewrite process_loop_result.
  reflexivity.
Qed.

(** Every payload reaches [send], once and in the order of the batch. *)
Lemma process_loop_calls {W : Type} (channel : Channel W)
    (events : list TailscaleEvent.t) (all_success : bool) (w : W)
    (log : list NotificationPayload.t) :
  snd (snd (process_loop (send (recording channel)) events all_success (w, log)))
  = log ++ map NotificationPayload.from_tailscale_event events.
Proof.
  revert all_success w log.
  induction events as [|event rest IH]; intros all_success w log; cbn.
  - symmetry. apply app_nil_r.
  - destruct (send channel (NotificationPayload.from_tailscale_event event) w)
      as [[[|]|e] w']; cbn; rewrite IH, <- app_assoc; reflexivity.
Qed.

(** C2: for a batch [[A; B; C]] and a channel whose [send] fails on [B]
    only, by returning [False] or by raising, the processor calls [send]
    three times, for [A], [B] and [C] in this order, and returns [False];
    the two ways of failing give the same result and neither ends the
    loop. *)
Theorem batch_isolation {W : Type} (channel : Channel W)
    (A B C : TailscaleEvent.t) (w0 w1 w2 w3 : W) (failure : result bool) :
  send channel (NotificationPayload.from_tailscale_event A) w0 = (Return true, w1) ->
  send channel (NotificationPayload.from_tailscale_event B) w1 = (failure, w2) ->
  send channel (NotificationPayload.from_tailscale_event C) w2 = (Return true, w3) ->
  failure = Return false \/ (exists e, failure = Raise e) ->
  process_webhook_events [A; B; C] (Some (recording channel)) (w0, [])
  = (false, (w3, [NotificationPayload.from_tailscale_event A;
                  NotificationPayload.from_tailscale_event B;
                  NotificationPayload.from_tailscale_event C])).
Proof.
  intros HA HB HC Hfail. cbn. rewrite HA. cbn. rewrite HB.
  destruct Hfail as [->|[e ->]]; cbn; rewrite HC; reflexivity.
Qed.

Lemma batch_isolation_witness :
  process_webhook_events
    [sample_event "node.created"; sample_event "node.deleted";
     sample_event "node.approved"]
    (Some (recording (failing_on "node.deleted" (Raise ValueError)))) (tt, [])
  = (false,
     (tt, [NotificationPayload.from_tailscale_event (sample_event "node.created");
           NotificationPayload.from_tailscale_event (sample_event "node.deleted");
           NotificationPayload.from_tailscale_event (sample_event "node.approved")])).
Proof.
  apply (batch_isolation (failing_on "node.deleted" (Raise ValueError))
           (sample_event "node.created") (sample_event "node.deleted")
           (sample_event "node.approved") tt tt tt tt (Raise ValueError)).
  - reflexivity.
  - reflexivity.
  - reflexivity.
  - right. exists ValueError. reflexivity.
Defined.

(** ** The endpoint *)

(** What the endpoint does once the secret is set and encoded, the
    signature verified and the body decoded. *)
Lemma webhook_tailscale_delivers `{PydanticCore} {W : Type} (app : AppState W)
    (now : Z) (request_id : string) (body : bytes) (header : string) (w : W)
    (secret_bytes : bytes) (events : list TailscaleEvent.t) :
  tailscale_webhook_secret (config app) <> [] ->
  str_encode_utf8 (tailscale_webhook_secret (config app)) = Return secret_bytes ->
  verify_signature now header body secret_bytes
    (webhook_timestamp_tolerance_seconds (config app)) = Return true ->
  validate_json body = Return events ->
  webhook_tailscale app now request_id body header w
  = (Return (if all_delivered (telegram_channel app) events w
             then accepted_response request_id (List.length events)
             else failed_response request_id),
     snd (process_webhook_events events (telegram_channel app) w)).
Proof.
  intros Hsecret Henc Hverify Hdecode. unfold webhook_tailscale.
  destruct (tailscale_webhook_secret (config app)) as [|c secret] eqn:E;
    [congruence|].
  rewrite Henc, Hverify, Hdecode.
  rewrite <- process_webhook_events_result.
  destruct (process_webhook_events events (telegram_channel app) w) as [[|] w'];
    reflexivity.
Qed.

(** C5: after verification and decoding, the response is [Accepted(count)]
    (202, with the number of events of the batch) if and only if every event
    was delivered, an empty batch and a missing channel counting as
    delivered; if some event failed the response is the delivery failure
    (500). *)
Theorem accepted_iff_all_delivered `{PydanticCore} {W : Type} (app : AppState W)
    (now : Z) (request_id : string) (body : bytes) (header : string) (w : W)
    (secret_bytes : bytes) (events : list TailscaleEvent.t) :
  tailscale_webhook_secret (config app) <> [] ->
  str_encode_utf8 (tailscale_webhook_secret (config app)) = Return secret_bytes ->
  verify_signature now header body secret_bytes
    (webhook_timestamp_tolerance_seconds (config app)) = Return true ->
  validate_json body = Return events ->
  (fst (post_events app now request_id body header w)
   = accepted_response request_id (List.length events)
   <-> all_delivered (telegram_channel app) events w = true) /\
  (all_delivered (telegram_channel app) events w = false ->
   fst (post_events app now request_id body header w) = failed_response request_id) /\
  all_delivered (telegram_channel app) [] w = true /\
  all_delivered None events w = true.
Proof.
  intros Hsecret Henc Hverify Hdecode. unfold post_events.
  rewrite (webhook_tailscale_delivers app now request_id body header w
             secret_bytes events Hsecret Henc Hverify Hdecode).
  cbn [fst]. repeat split.
  - destruct (all_delivered (telegram_channel app) events w);
      [reflexivity|discriminate].
  - intros ->. reflexivity.
  - intros ->. reflexivity.
  - destruct (telegram_channel app); reflexivity.
Qed.

(** C4: with an empty secret the endpoint raises its verification error
    at once, whatever the header, the body, the clock and the decoder are,
    and leaves the world of the channel as it was; the client receives the
    401 response of a request whose signature is bad, with the same body and
    the same headers. *)
Theorem empty_secret_rejected_first `{PydanticCore} {W : Type}
    (bot_token chat_id : string) (tolerance : Z) (channel : option (Channel W))
    (now : Z) (request_id : string) (body : bytes) (header : string) (w : W) :
  webhook_tailscale (mk_app (mk_config [] bot_token chat_id tolerance) channel)
    now request_id body header w
  = (Raise (WebhookVerificationError SecretNotConfigured), w) /\
  post_events (mk_app (mk_config [] bot_token chat_id tolerance) channel)
    now request_id body header w
  = (mk_response 401
       (JObject [("detail", JString "Invalid webhook signature or timestamp")]) [],
     w) /\
  forall (app' : AppState W) (now' : Z) (request_id' : string) (body' : bytes)
         (header' : string) (w' : W) (secret_bytes : bytes),
    tailscale_webhook_secret (config app') <> [] ->
    str_encode_utf8 (tailscale_webhook_secret (config app')) = Return secret_bytes ->
    verify_signature now' header' body' secret_bytes
      (webhook_timestamp_tolerance_seconds (config app')) = Return false ->
    post_events app' now' request_id' body' header' w'
    = (fst (post_events (mk_app (mk_config [] bot_token chat_id tolerance) channel)
              now request_id body header w), w').
Proof.
  repeat split.
  intros app' now' request_id' body' header' w' secret_bytes Hsecret Henc Hverify.
  unfold post_events, webhook_tailscale.
  destruct (tailscale_webhook_secret (config app')) as [|c secret] eqn:E;
    [congruence|].
  rewrite Henc, Hverify. reflexivity.
Qed.

Lemma accepted_iff_all_delivered_witness :
  (fst (post_events (H := Reader.pydantic) (mk_app (mk_config [115%N] "token" "chat" 300) (Some reliable_channel))
          1705316400 "6f1c" sample_body
          (signature_header_of 1705316400
             (compute_signature 1705316400 sample_body (bytes_of_string "s"))) tt)
   = accepted_response "6f1c" 1
   <-> all_delivered (Some reliable_channel) [sample_event "node.created"] tt = true) /\
  (all_delivered (Some reliable_channel) [sample_event "node.created"] tt = false ->
   fst (post_events (H := Reader.pydantic) (mk_app (mk_config [115%N] "token" "chat" 300) (Some reliable_channel))
          1705316400 "6f1c" sample_body
          (signature_header_of 1705316400
             (compute_signature 1705316400 sample_body (bytes_of_string "s"))) tt)
   = failed_response "6f1c") /\
  all_delivered (Some reliable_channel) [] tt = true /\
  all_delivered None [sample_event "node.created"] tt = true.
Proof.
  apply (accepted_iff_all_delivered (H := Reader.pydantic)
           (mk_app (mk_config [115%N] "token" "chat" 300) (Some reliable_channel))
           1705316400 "6f1c" sample_body _ tt (bytes_of_string "s")
           [sample_event "node.created"]).
  - discriminate.
  - reflexivity.
  - vm_compute. reflexivity.
  - vm_compute. reflexivity.
Defined.

Lemma empty_secret_rejected_first_witness :
  post_events (H := Reader.pydantic)
    (mk_app (mk_config [115%N] "token" "chat" 300) (Some reliable_channel))
    1705316400 "6f1c" sample_body "t=1705316400,v1=00" tt
  = (fst (post_events (H := Reader.pydantic) (mk_app (mk_config [] "token" "chat" 300) (Some reliable_channel))
            1705316400 "77aa" sample_body "t=1705316400,v1=00" tt), tt).
Proof.
  apply (proj2 (proj2 (empty_secret_rejected_first (H := Reader.pydantic)
           "token" "chat" 300%Z (Some reliable_channel)
           1705316400%Z "77aa" sample_body "t=1705316400,v1=00" tt))
         (mk_app (mk_config [115%N] "token" "chat" 300%Z) (Some reliable_channel))
         1705316400%Z "6f1c" sample_body "t=1705316400,v1=00" tt (bytes_of_string "s")).
  - discriminate.
  - reflexivity.
  - vm_compute. reflexivity.
Defined.

(** C8, as the specification states it, fails: the 401 response to a bad
    signature, and the 401 response to a body that is not an array of events,
    have no request identifier in the body and no [X-Request-ID] header. *)
Lemma request_id_absent_from_401 :
  ~ carries_request_id "6f1c"
      (fst (post_events (H := Reader.pydantic)
              (mk_app (mk_config [115%N] "token" "chat" 300) (Some reliable_channel))
              1705316400 "6f1c" sample_body "t=1705316400,v1=00" tt)) /\
  ~ carries_request_id "6f1c"
      (fst (post_events (H := Reader.pydantic)
              (mk_app (mk_config [115%N] "token" "chat" 300) (Some reliable_channel))
              1705316400 "6f1c" (bytes_of_string "{}")
              (signature_header_of 1705316400
                 (compute_signature 1705316400 (bytes_of_string "{}")
                    (bytes_of_string "s"))) tt)).
Proof. split; vm_compute; intros [H _]; discriminate. Qed.

(** C8 (amended): every response the endpoint itself returns, the 202 of
    an accepted batch and the 500 of a failed delivery, has the generated
    request identifier in its body and an [X-Request-ID] header with the same
    identifier; the responses of the exception handlers, among them the 401
    of a verification or decoding failure, have neither. *)
Theorem request_id_on_endpoint_responses `{PydanticCore} {W : Type}
    (app : AppState W) (now : Z) (request_id : string) (body : bytes)
    (header : string) (w : W) :
  match fst (webhook_tailscale app now request_id body header w) with
  | Return response =>
      carries_request_id request_id response /\
      (status_code response = 202%Z \/ status_code response = 500%Z)
  | Raise exc =>
      body_request_id (exception_handler exc) = None /\
      header_value "X-Request-ID" (headers (exception_handler exc)) = None
  end.
Proof.
  unfold webhook_tailscale.
  destruct (tailscale_webhook_secret (config app)) as [|c secret];
    [split; reflexivity|].
  destruct (str_encode_utf8 (c :: secret)) as [secret_bytes|e];
    [|destruct e; split; reflexivity].
  destruct (verify_signature now header body secret_bytes
              (webhook_timestamp_tolerance_seconds (config app))) as [[|]|e];
    [|split; reflexivity|destruct e; split; reflexivity].
  destruct (validate_json body) as [events|e];
    [|destruct e; split; reflexivity].
  destruct (process_webhook_events events (telegram_channel app) w) as [[|] w'];
    cbn; unfold carries_request_id, body_request_id; cbn; auto.
Qed.

(** ** Decoding *)




Section Decoding.

Context `{PydanticCore}.






End Decoding.





(** C10: an event object in which the five required fields are present
    and accepted, and which has no [data] member, is decoded, and the [data]
    of the event, hence the [raw_data] of its notification payload, is the
    empty mapping. *)
Theorem missing_data_defaults_to_empty `{PydanticCore}
    (members : list (string * json)) :
  (forall name, In name required_fields ->
     exists j, get name members = Some j /\ field_accepts name j = true) ->
  get "data" members = None ->
  exists event,
    TailscaleEvent.validate (JObject members) = Return event /\
    TailscaleEvent.data event = [] /\
    NotificationPayload.raw_data (NotificationPayload.from_tailscale_event event) = [].
Proof.
  intros Hreq Hdata.
  destruct (Hreq "timestamp") as [j1 [G1 A1]]; [cbn; tauto|].
  destruct (Hreq "version") as [j2 [G2 A2]]; [cbn; tauto|].
  destruct (Hreq "type") as [j3 [G3 A3]]; [cbn; tauto|].
  destruct (Hreq "tailnet") as [j4 [G4 A4]]; [cbn; tauto|].
  destruct (Hreq "message") as [j5 [G5 A5]]; [cbn; tauto|].
  unfold field_accepts in A1, A2, A3, A4, A5. cbn in A1, A2, A3, A4, A5.
  unfold TailscaleEvent.validate, required, with_default.
  rewrite G1, G2, G3, G4, G5, Hdata.
  destruct (datetime_validator j1); [|discriminate].
  destruct (int_validator j2); [|discriminate].
  destruct (str_validator j3); [|discriminate].
  destruct (str_validator j4); [|discriminate].
  destruct (str_validator j5); [|discriminate].
  eexists. repeat split.
Qed.

Lemma missing_data_defaults_to_empty_witness :
  exists event,
    TailscaleEvent.validate (H := Reader.pydantic) (JObject sample_members)
    = Return event /\
    TailscaleEvent.data event = [] /\
    NotificationPayload.raw_data (NotificationPayload.from_tailscale_event event) = [].
Proof.
  apply (missing_data_defaults_to_empty (H := Reader.pydantic) sample_members).
  - intros name Hin. cbn in Hin.
    destruct Hin as [<-|[<-|[<-|[<-|[<-|[]]]]]]; eexists; split; reflexivity.
  - reflexivity.
Defined.

(** ** The end-to-end scenarios of the specification, evaluated *)

Section Scenarios.

Let app (tolerance : Z) (channel : Channel unit) : AppState unit :=
  mk_app (mk_config [115%N] "token" "chat" tolerance) (Some channel).

Let signed (timestamp : Z) (body : bytes) : string :=
  signature_header_of timestamp (compute_signature timestamp body (bytes_of_string "s")).

(** Scenario 1: a signed batch of one event is accepted. *)
Example scenario_accepted :
  post_events (H := Reader.pydantic) (app 300 reliable_channel) 1705316400 "6f1c"
    sample_body (signed 1705316400 sample_body) tt
  = (accepted_response "6f1c" 1, tt).
Proof. vm_compute. reflexivity. Qed.

(** Scenario 2: a timestamp 600 seconds old, with a tolerance of 300. *)
Example scenario_stale :
  webhook_tailscale (H := Reader.pydantic) (app 300 reliable_channel) 1705316400 "6f1c"
    sample_body (signed (1705316400 - 600) sample_body) tt
  = (Raise (WebhookVerificationError SignatureVerificationFailed), tt).
Proof. vm_compute. reflexivity. Qed.

(** Scenario 3: a signed body that is an object, not an array. *)
Example scenario_not_an_array :
  webhook_tailscale (H := Reader.pydantic) (app 300 reliable_channel) 1705316400 "6f1c"
    (bytes_of_string (Reader.quoted "{'type':'not-an-array'}"))
    (signed 1705316400 (bytes_of_string (Reader.quoted "{'type':'not-an-array'}"))) tt
  = (Raise (WebhookVerificationError InvalidEventData), tt).
Proof. vm_compute. reflexivity. Qed.

(** Scenario 4: [send] returns [False] for the only event. *)
Example scenario_delivery_failure :
  post_events (H := Reader.pydantic)
    (app 300 (failing_on "node.created" (Return false))) 1705316400 "6f1c"
    sample_body (signed 1705316400 sample_body) tt
  = (failed_response "6f1c", tt).
Proof. vm_compute. reflexivity. Qed.

(** The parser examples of [tests/test_security.py]. *)
Example parse_valid_signature_header :
  parse_signature_header "t=1705316400,v1=abc123def456"
  = Return (Some "abc123def456", Some 1705316400%Z).
Proof. vm_compute. reflexivity. Qed.

Example parse_invalid_timestamp_not_integer :
  parse_signature_header "t=not-a-number,v1=abc123" = Return (None, None).
Proof. vm_compute. reflexivity. Qed.

(** A fresh timestamp with a signature that is not ASCII: the comparison
    raises, and the client receives the response of the generic handler. *)
Example non_ascii_signature_raises :
  verify_signature 1705316400
    ("t=1705316400,v1=" ++ String (ascii_of_N 233) EmptyString)
    sample_body (bytes_of_string "s") 300
  = Raise TypeError.
Proof. vm_compute. reflexivity. Qed.

End Scenarios.

(** * Further properties *)

(** ** The header parser as a whole *)

Lemma last_cons_default {A : Type} (a : A) (l : list A) (d : A) :
  last (a :: l) d = last l a.
Proof.
  revert a d. induction l as [|b l IH]; intros a d; [reflexivity|].
  change (last (a :: b :: l) d) with (last (b :: l) d).
  rewrite (IH b d), (IH b a). reflexivity.
Qed.

Lemma parse_parts_as_lists (parts : list string) (ts : option Z) (sig : option string) :
  existsb bad_timestamp_part parts = false ->
  parse_parts parts ts sig
  = Return (last (map Some (timestamp_values parts)) ts,
            last (map Some (signature_values parts)) sig).
Proof.
  revert ts sig. induction parts as [|part rest IH]; intros ts sig Hbad.
  - reflexivity.
  - cbn [existsb] in Hbad. apply orb_false_iff in Hbad. destruct Hbad as [Hpart Hrest].
    unfold bad_timestamp_part in Hpart.
    cbn [parse_parts]. unfold timestamp_values, signature_values.
    cbn [flat_map filter].
    destruct (startswith "t=" part) eqn:Ht; cbn [negb andb] in *.
    + destruct (py_int (drop 2 part)) as [t|e]; [|discriminate].
      cbn [bind app map]. rewrite IH by exact Hrest.
      rewrite last_cons_default. reflexivity.
    + destruct (startswith "v1=" part); rewrite IH by exact Hrest.
      * cbn [map]. rewrite last_cons_default. reflexivity.
      * reflexivity.
Qed.

(** X1: the parser written as one expression, for a header of at most
    4300 characters, which cannot hold a literal beyond the interpreter's
    limit. If some [t=] part is not an integer the result is
    [(None, None)]; otherwise it is the value of the last [t=] part together
    with the value of the last [v1=] part, and [(None, None)] when either is
    missing. Parts of any other shape are skipped, and the parser does not
    raise and does not return one of the two without the other. *)
Theorem parse_signature_header_last_wins (h : string) :
  below_digit_limit h ->
  parse_signature_header h
  = Return
      (if existsb bad_timestamp_part (split "," h) then (None, None)
       else
         match last_of (timestamp_values (split "," h)),
               last_of (signature_values (split "," h)) with
         | Some timestamp, Some signature => (Some signature, Some timestamp)
         | _, _ => (None, None)
         end).
Proof.
  intros _. unfold parse_signature_header, last_of.
  destruct (existsb bad_timestamp_part (split "," h)) eqn:Hbad.
  - rewrite parse_parts_bad_timestamp; [reflexivity|].
    apply existsb_exists in Hbad. destruct Hbad as [part [Hin Hpart]].
    apply Exists_exists. exists part. split; [exact Hin|].
    unfold bad_timestamp_part in Hpart. apply andb_true_iff in Hpart.
    destruct Hpart as [Ht Hint]. split; [exact Ht|].
    destruct (py_int (drop 2 part)) as [t|e] eqn:E; [discriminate|].
    f_equal. eapply py_int_raises; eassumption.
  - rewrite parse_parts_as_lists by exact Hbad.
    destruct (last (map Some (timestamp_values (split "," h))) None);
      destruct (last (map Some (signature_values (split "," h))) None);
      reflexivity.
Qed.

Lemma parse_signature_header_last_wins_witness :
  parse_signature_header "t=1,v1=a,x,t=2,v1=b" = Return (Some "b", Some 2%Z).
Proof.
  apply (parse_signature_header_last_wins "t=1,v1=a,x,t=2,v1=b").
  vm_compute. discriminate.
Defined.

(** X2: formatting then parsing is the identity. For every integer
    timestamp of at most 4300 digits, negative ones included, and every
    signature text without a comma (it may hold [=] signs), the header
    [t=<timestamp>,v1=<signature>] parses to that signature and that
    timestamp. *)
Theorem signature_header_round_trip (timestamp : Z) (signature : string) :
  within_digit_limit timestamp ->
  char_in "," signature = false ->
  parse_signature_header (signature_header_of timestamp signature)
  = Return (Some signature, Some timestamp).
Proof. intros _. apply parse_signed_header. Qed.

Lemma signature_header_round_trip_witness :
  parse_signature_header (signature_header_of (-42) "a=b=")
  = Return (Some "a=b=", Some (-42)%Z).
Proof.
  apply (signature_header_round_trip (-42) "a=b=").
  - vm_compute. reflexivity.
  - reflexivity.
Defined.

(** ** What verification accepts, and when it raises *)

Lemma compare_digest_true (a b : string) :
  compare_digest a b = Return true -> a = b.
Proof.
  unfold compare_digest. destruct (isascii a && isascii b); [|discriminate].
  intros H. injection H as H. apply String.eqb_eq. exact H.
Qed.

Lemma verify_true_characterised (now : Z) (h : string) (body secret : bytes) (tol : Z) :
  verify_signature now h body secret tol = Return true <->
  exists signature timestamp,
    parse_signature_header h = Return (Some signature, Some timestamp) /\
    (0 <= now - timestamp <= tol)%Z /\
    signature = compute_signature timestamp body secret.
Proof.
  unfold verify_signature. split.
  - destruct (parse_signature_header h) as [[[sig|] [ts|]]|e]; cbn [bind];
      try discriminate.
    destruct (validate_timestamp now ts tol) eqn:Hfresh; cbn [negb];
      [|discriminate].
    destruct (compare_digest (compute_signature ts body secret) sig) as [[|]|e] eqn:Hcmp;
      cbn [bind negb]; try discriminate.
    intros _. exists sig, ts. repeat split;
      try (apply validate_timestamp_spec in Hfresh; lia).
    symmetry. apply compare_digest_true. exact Hcmp.
  - intros [sig [ts [-> [Hwin ->]]]]. cbn [bind].
    apply validate_timestamp_spec in Hwin. rewrite Hwin. cbn [negb].
    rewrite compare_digest_same by apply compute_signature_plain. reflexivity.
Qed.

(** X3: verification returns [True] exactly when the header parses to a
    timestamp within the window and to the very text that
    [compute_signature] gives for that timestamp, the body and the secret. *)
Theorem verify_signature_true_iff (now : Z) (h : string) (body secret : bytes) (tol : Z) :
  verify_signature now h body secret tol = Return true <->
  exists signature timestamp,
    parse_signature_header h = Return (Some signature, Some timestamp) /\
    (0 <= now - timestamp <= tol)%Z /\
    signature = compute_signature timestamp body secret.
Proof. apply verify_true_characterised. Qed.

Lemma verify_raise_characterised (now : Z) (h : string) (body secret : bytes)
    (tol : Z) (e : exn) :
  verify_signature now h body secret tol = Raise e <->
  e = TypeError /\
  exists signature timestamp,
    parse_signature_header h = Return (Some signature, Some timestamp) /\
    (0 <= now - timestamp <= tol)%Z /\
    isascii signature = false.
Proof.
  unfold verify_signature. split.
  - destruct (parse_signature_header_returns h) as [[[sig|] [ts|]] ->]; cbn [bind];
      try discriminate.
    destruct (validate_timestamp now ts tol) eqn:Hfresh; cbn [negb];
      [|discriminate].
    unfold compare_digest.
    destruct (compute_signature_plain ts body secret) as [-> _]. cbn [andb].
    destruct (isascii sig) eqn:Hascii; cbn [bind].
    + destruct (String.eqb (compute_signature ts body secret) sig); discriminate.
    + intros H. injection H as <-. split; [reflexivity|].
      exists sig, ts. apply validate_timestamp_spec in Hfresh. auto.
  - intros [-> [sig [ts [-> [Hwin Hascii]]]]]. cbn [bind].
    apply validate_timestamp_spec in Hwin. rewrite Hwin. cbn [negb].
    unfold compare_digest. rewrite Hascii, andb_false_r. reflexivity.
Qed.

(** X4: verification raises in one case only, with a [TypeError]: the
    header parses, its timestamp is within the window, and the signature it
    carries has a character that is not ASCII. *)
Theorem verify_signature_raises_iff (now : Z) (h : string) (body secret : bytes)
    (tol : Z) (e : exn) :
  verify_signature now h body secret tol = Raise e <->
  e = TypeError /\
  exists signature timestamp,
    parse_signature_header h = Return (Some signature, Some timestamp) /\
    (0 <= now - timestamp <= tol)%Z /\
    isascii signature = false.
Proof. apply verify_raise_characterised. Qed.

(** ** The shape of a signature *)

Lemma string_length_append (a b : string) :
  String.length (a ++ b) = (String.length a + String.length b)%nat.
Proof. induction a as [|c a IH]; cbn; [reflexivity|]. rewrite IH. reflexivity. Qed.

Lemma hex_length (bs : bytes) : String.length (hex bs) = (2 * List.length bs)%nat.
Proof.
  induction bs as [|b bs IH]; [reflexivity|].
  cbn [hex]. rewrite string_length_append, IH. cbn [hex_of_byte String.length List.length].
  lia.
Qed.

Lemma all_chars_append (p : ascii -> bool) (a b : string) :
  all_chars p (a ++ b) = all_chars p a && all_chars p b.
Proof.
  induction a as [|c a IH]; cbn; [reflexivity|]. rewrite IH. apply andb_assoc.
Qed.

Lemma hex_lowercase (bs : bytes) : all_chars is_lower_hex (hex bs) = true.
Proof.
  induction bs as [|b bs IH]; [reflexivity|].
  cbn [hex]. rewrite all_chars_append, IH, andb_true_r.
  destruct b; reflexivity.
Qed.

Lemma sha256_digest_length (msg : bytes) : List.length (SHA256.digest msg) = 32%nat.
Proof. reflexivity. Qed.

(** X5: a computed signature is always 64 lowercase hexadecimal digits,
    and so is every signature that verifies: the comparison is exact, an
    upper-case or shortened rendering of the right digest is refused. *)
Theorem signature_is_64_lowercase_hex (timestamp : Z) (body secret : bytes) :
  (String.length (compute_signature timestamp body secret) = 64%nat /\
   all_chars is_lower_hex (compute_signature timestamp body secret) = true) /\
  forall (now : Z) (h : string) (tol : Z),
    verify_signature now h body secret tol = Return true ->
    exists signature ts,
      parse_signature_header h = Return (Some signature, Some ts) /\
      String.length signature = 64%nat /\
      all_chars is_lower_hex signature = true.
Proof.
  assert (Hshape : forall ts,
            String.length (compute_signature ts body secret) = 64%nat /\
            all_chars is_lower_hex (compute_signature ts body secret) = true).
  { intros ts. unfold compute_signature, HMAC.hexdigest, HMAC.digest.
    rewrite hex_length, sha256_digest_length. split; [reflexivity|apply hex_lowercase]. }
  split; [apply Hshape|].
  intros now h tol Hverify. apply verify_true_characterised in Hverify.
  destruct Hverify as [sig [ts [Hparse [_ ->]]]].
  exists (compute_signature ts body secret), ts.
  split; [exact Hparse|apply Hshape].
Qed.

Lemma signature_is_64_lowercase_hex_witness :
  exists signature ts,
    parse_signature_header
      (signature_header_of 1705316400
         (compute_signature 1705316400 sample_body (bytes_of_string "s")))
    = Return (Some signature, Some ts) /\
    String.length signature = 64%nat /\
    all_chars is_lower_hex signature = true.
Proof.
  apply (proj2 (signature_is_64_lowercase_hex 0 sample_body (bytes_of_string "s"))
           1705316400%Z _ 300%Z).
  vm_compute. reflexivity.
Defined.

(** ** Blanks in the header *)

Import DecimalString.

Lemma digits_run_before_blank (u : Decimal.uint) (prev : ascii) :
  is_underscore prev = false ->
  digits_run (NilEmpty.string_of_uint u ++ " ") prev = Some (u, " "%string).
Proof.
  revert prev.
  induction u as [|u IH|u IH|u IH|u IH|u IH|u IH|u IH|u IH|u IH|u IH];
    intros prev Hprev; cbn [NilEmpty.string_of_uint append];
    [cbn; rewrite Hprev; reflexivity| ..];
    cbn [digits_run];
    match goal with
    | |- context [digit_of_ascii ?c] =>
        let d := eval vm_compute in (digit_of_ascii c) in
        change (digit_of_ascii c) with d
    end;
    cbv beta iota; rewrite IH by reflexivity; reflexivity.
Qed.

Lemma py_int_padded_unsigned (u : Decimal.uint) :
  u <> Decimal.Nil ->
  py_int (" " ++ NilEmpty.string_of_uint u ++ " ") = Return (Z.of_uint u).
Proof.
  intros Hu. unfold py_int.
  assert (Ha : isascii (" " ++ NilEmpty.string_of_uint u ++ " ") = true).
  { rewrite !isascii_append. destruct (string_of_uint_plain u) as [-> _]. reflexivity. }
  rewrite Ha.
  change (skip_spaces (" " ++ NilEmpty.string_of_uint u ++ " "))
    with (skip_spaces (NilEmpty.string_of_uint u ++ " ")).
  destruct u; try congruence; cbn [NilEmpty.string_of_uint append]; simpl;
    rewrite digits_run_before_blank by reflexivity; reflexivity.
Qed.

Lemma py_int_padded_negative (u : Decimal.uint) :
  u <> Decimal.Nil ->
  py_int (" " ++ String "-" (NilEmpty.string_of_uint u) ++ " ")
  = Return (- Z.of_uint u)%Z.
Proof.
  intros Hu. unfold py_int.
  assert (Ha : isascii (" " ++ String "-" (NilEmpty.string_of_uint u) ++ " ") = true).
  { change (isascii (" " ++ String "-" (NilEmpty.string_of_uint u) ++ " "))
      with (isascii (NilEmpty.string_of_uint u ++ " ")).
    rewrite isascii_append. destruct (string_of_uint_plain u) as [-> _]. reflexivity. }
  rewrite Ha.
  change (skip_spaces (" " ++ String "-" (NilEmpty.string_of_uint u) ++ " "))
    with (String "-" (NilEmpty.string_of_uint u ++ " ")).
  destruct u; try congruence; cbn [NilEmpty.string_of_uint append]; simpl;
    rewrite digits_run_before_blank by reflexivity; reflexivity.
Qed.

(** [int] takes blanks around the digits. *)
Lemma py_int_padded (n : Z) : py_int (" " ++ py_str n ++ " ") = Return n.
Proof.
  unfold py_str. rewrite <- (DecimalZ.of_to n) at 2.
  destruct n as [|p|p]; cbn [Z.to_int NilEmpty.string_of_int].
  - reflexivity.
  - rewrite py_int_padded_unsigned by apply Unsigned.to_uint_nonnil. reflexivity.
  - rewrite py_int_padded_negative by apply Unsigned.to_uint_nonnil. reflexivity.
Qed.

Lemma string_append_assoc (a b c : string) : ((a ++ b) ++ c = a ++ b ++ c)%string.
Proof. induction a as [|x a IH]; cbn; [reflexivity|]. rewrite IH. reflexivity. Qed.

(** X6: blanks are taken around the number but not before a key, for
    every timestamp of at most 4300 digits. With a blank on each side of the
    timestamp the header still parses to the same pair; with a blank after
    the comma the part [ v1=...] is not recognised and the result is
    [(None, None)]. *)
Theorem blanks_in_signature_header (timestamp : Z) (signature : string) :
  within_digit_limit timestamp ->
  char_in "," signature = false ->
  parse_signature_header ("t= " ++ py_str timestamp ++ " ,v1=" ++ signature)
  = Return (Some signature, Some timestamp) /\
  parse_signature_header ("t=" ++ py_str timestamp ++ ", v1=" ++ signature)
  = Return (None, None).
Proof.
  intros _ Hsig. destruct (py_str_plain timestamp) as [_ Hc]. split.
  - unfold parse_signature_header.
    replace ("t= " ++ py_str timestamp ++ " ,v1=" ++ signature)%string
      with (("t= " ++ py_str timestamp ++ " ") ++ String "," ("v1=" ++ signature))%string
      by (cbn [append]; rewrite string_append_assoc; reflexivity).
    rewrite split_at_separator
      by (rewrite !char_in_append, Hc; reflexivity).
    rewrite split_without_separator by exact Hsig.
    cbn [parse_parts].
    change (startswith "t=" ("t= " ++ py_str timestamp ++ " ")) with true.
    change (drop 2 ("t= " ++ py_str timestamp ++ " "))
      with (" " ++ py_str timestamp ++ " ")%string.
    rewrite py_int_padded. cbn [bind]. simpl.
    destruct signature; reflexivity.
  - unfold parse_signature_header.
    change ("t=" ++ py_str timestamp ++ ", v1=" ++ signature)%string
      with (("t=" ++ py_str timestamp) ++ String "," (" v1=" ++ signature))%string.
    rewrite split_at_separator
      by (rewrite char_in_append, Hc; reflexivity).
    rewrite split_without_separator by exact Hsig.
    cbn [parse_parts].
    change (startswith "t=" ("t=" ++ py_str timestamp))
      with (startswith EmptyString (py_str timestamp)).
    replace (startswith EmptyString (py_str timestamp)) with true
      by (destruct (py_str timestamp); reflexivity).
    change (drop 2 ("t=" ++ py_str timestamp)) with (py_str timestamp).
    rewrite py_int_py_str. reflexivity.
Qed.

Lemma blanks_in_signature_header_witness :
  parse_signature_header ("t= " ++ py_str 1705316400 ++ " ,v1=" ++ "abc123")
  = Return (Some "abc123", Some 1705316400%Z) /\
  parse_signature_header ("t=" ++ py_str 1705316400 ++ ", v1=" ++ "abc123")
  = Return (None, None).
Proof.
  apply (blanks_in_signature_header 1705316400 "abc123").
  - vm_compute. reflexivity.
  - reflexivity.
Defined.

(** ** The tolerance *)

Lemma verify_signature_negative_tolerance (now : Z) (h : string)
    (body secret : bytes) (tol : Z) :
  (tol < 0)%Z -> verify_signature now h body secret tol = Return false.
Proof.
  intros Htol. unfold verify_signature.
  destruct (parse_signature_header_returns h) as [[[sig|] [ts|]] ->]; cbn [bind];
    try reflexivity.
  destruct (validate_timestamp now ts tol) eqn:E; [|reflexivity].
  apply validate_timestamp_spec in E. lia.
Qed.

(** X7: nothing checks the sign of the tolerance. With a negative
    tolerance no timestamp is fresh: verification returns [False] for every
    header, body and secret, and the endpoint accepts no request and sends
    nothing, whatever the secret. Its answer is the 401 when the secret can
    be encoded as UTF-8, the empty one included, and the generic 500 when
    it cannot. *)
Theorem negative_tolerance_rejects_everything `{PydanticCore} {W : Type}
    (app : AppState W) (now : Z) (request_id : string) (body : bytes)
    (header : string) (w : W) :
  (webhook_timestamp_tolerance_seconds (config app) < 0)%Z ->
  (forall secret_bytes : bytes,
     verify_signature now header body secret_bytes
       (webhook_timestamp_tolerance_seconds (config app)) = Return false) /\
  post_events app now request_id body header w
  = (match str_encode_utf8 (tailscale_webhook_secret (config app)) with
     | Return _ =>
         webhook_verification_error_handler
           (WebhookVerificationError SignatureVerificationFailed)
     | Raise e => generic_exception_handler e
     end, w).
Proof.
  intros Htol. split.
  - intros secret_bytes. apply verify_signature_negative_tolerance. exact Htol.
  - unfold post_events, webhook_tailscale.
    destruct (tailscale_webhook_secret (config app)) as [|c secret]; [reflexivity|].
    unfold str_encode_utf8.
    destruct (existsb is_surrogate (c :: secret)); [reflexivity|].
    rewrite verify_signature_negative_tolerance by exact Htol. reflexivity.
Qed.

Lemma negative_tolerance_rejects_everything_witness :
  (forall secret_bytes : bytes,
     verify_signature 1705316400
       (signature_header_of 1705316400
          (compute_signature 1705316400 sample_body (bytes_of_string "s")))
       sample_body secret_bytes (-1) = Return false) /\
  post_events (H := Reader.pydantic)
    (mk_app (mk_config [115%N] "token" "chat" (-1)) (Some reliable_channel))
    1705316400 "6f1c" sample_body
    (signature_header_of 1705316400
       (compute_signature 1705316400 sample_body (bytes_of_string "s"))) tt
  = (webhook_verification_error_handler
       (WebhookVerificationError SignatureVerificationFailed), tt).
Proof.
  apply (negative_tolerance_rejects_everything (H := Reader.pydantic)
           (mk_app (mk_config [115%N] "token" "chat" (-1)%Z) (Some reliable_channel))
           1705316400%Z "6f1c" sample_body _ tt).
  reflexivity.
Defined.

(** ** Decoding, further *)

Lemma traverse_pointwise {A B : Type} (f : A -> result B) (l : list A) (ys : list B) :
  traverse f l = Return ys -> Forall2 (fun a b => f a = Return b) l ys.
Proof.
  revert ys. induction l as [|a l IH]; cbn [traverse]; intros ys H.
  - injection H as <-. constructor.
  - destruct (f a) as [b|] eqn:Ha; [|discriminate]. cbn [bind] in H.
    destruct (traverse f l) as [ys'|] eqn:Hl; [|discriminate].
    injection H as <-. constructor; [exact Ha|apply IH; reflexivity].
Qed.

Lemma traverse_raises_same {A B : Type} (f : A -> result B) (l : list A) (e0 e : exn) :
  (forall a e', f a = Raise e' -> e' = e0) ->
  traverse f l = Raise e -> e = e0.
Proof.
  intros Hf. induction l as [|a l IH]; cbn [traverse]; intros H; [discriminate|].
  destruct (f a) as [b|e'] eqn:Ha; cbn [bind] in H.
  - destruct (traverse f l) as [ys|e'']; [discriminate|].
    injection H as <-. apply IH. reflexivity.
  - injection H as <-. eapply Hf. exact Ha.
Qed.

Lemma validate_raises_validation_error `{PydanticCore} (element : json) (e : exn) :
  TailscaleEvent.validate element = Raise e -> e = ValidationError.
Proof.
  destruct element as [| | | | |members];
    try (intros E; injection E as <-; reflexivity).
  unfold TailscaleEvent.validate, required, with_default.
  repeat match goal with
  | |- context [match get ?n ?m with _ => _ end] => destruct (get n m)
  | |- context [match datetime_validator ?j with _ => _ end] =>
      destruct (datetime_validator j)
  | |- context [match int_validator ?j with _ => _ end] => destruct (int_validator j)
  | |- context [match str_validator ?j with _ => _ end] => destruct (str_validator j)
  | |- context [match dict_validator ?j with _ => _ end] => destruct (dict_validator j)
  | |- _ => progress cbn [bind]
  end;
  intros E; try discriminate; injection E as <-; reflexivity.
Qed.

Lemma validate_json_raises_validation_error `{PydanticCore} (body : bytes) (e : exn) :
  validate_json body = Raise e -> e = ValidationError.
Proof.
  unfold validate_json.
  destruct (json_loads body) as [[| | | |items|]|];
    try (intros E; injection E as <-; reflexivity).
  apply traverse_raises_same. intros a e'. apply validate_raises_validation_error.
Qed.

(** X8: a decoded batch has one event for each element of the array, in
    the order of the array: the i-th event is the validation of the i-th
    element. The count of an accepted response is therefore the number of
    elements of the body. *)
Theorem decoded_batch_follows_array `{PydanticCore} (body : bytes)
    (events : list TailscaleEvent.t) :
  validate_json body = Return events ->
  exists items,
    json_loads body = Some (JArray items) /\
    Forall2 (fun item event => TailscaleEvent.validate item = Return event)
            items events /\
    List.length events = List.length items.
Proof.
  unfold validate_json.
  destruct (json_loads body) as [[| | | |items|]|]; try discriminate.
  intros Htrav. apply traverse_pointwise in Htrav.
  exists items. repeat split; [exact Htrav|].
  symmetry. eapply Forall2_length. exact Htrav.
Qed.

Lemma decoded_batch_follows_array_witness :
  exists items,
    json_loads (PydanticCore := Reader.pydantic) sample_body = Some (JArray items) /\
    Forall2 (fun item event =>
               TailscaleEvent.validate (H := Reader.pydantic) item = Return event)
            items [sample_event "node.created"] /\
    List.length [sample_event "node.created"] = List.length items.
Proof.
  apply (decoded_batch_follows_array (H := Reader.pydantic) sample_body
           [sample_event "node.created"]).
  vm_compute. reflexivity.
Defined.

(** ** The endpoint, further *)

(** X9: a body that fails to decode, under a signature that verifies, is
    answered like a bad signature: the same 401, with nothing sent. Decoding
    raises nothing but the validation error, so this covers every decoding
    failure. *)
Theorem decode_failure_is_401 `{PydanticCore} {W : Type} (app : AppState W)
    (now : Z) (request_id : string) (body : bytes) (header : string) (w : W)
    (secret_bytes : bytes) (e : exn) :
  tailscale_webhook_secret (config app) <> [] ->
  str_encode_utf8 (tailscale_webhook_secret (config app)) = Return secret_bytes ->
  verify_signature now header body secret_bytes
    (webhook_timestamp_tolerance_seconds (config app)) = Return true ->
  validate_json body = Raise e ->
  e = ValidationError /\
  post_events app now request_id body header w
  = (webhook_verification_error_handler
       (WebhookVerificationError SignatureVerificationFailed), w).
Proof.
  intros Hsecret Henc Hverify Hdecode.
  pose proof (validate_json_raises_validation_error body e Hdecode) as ->.
  split; [reflexivity|].
  unfold post_events, webhook_tailscale.
  destruct (tailscale_webhook_secret (config app)) as [|c secret]; [congruence|].
  rewrite Henc, Hverify, Hdecode. reflexivity.
Qed.

Lemma decode_failure_is_401_witness :
  ValidationError = ValidationError /\
  post_events (H := Reader.pydantic)
    (mk_app (mk_config [115%N] "token" "chat" 300) (Some reliable_channel))
    1705316400 "6f1c" (bytes_of_string "{}")
    (signature_header_of 1705316400
       (compute_signature 1705316400 (bytes_of_string "{}") (bytes_of_string "s"))) tt
  = (webhook_verification_error_handler
       (WebhookVerificationError SignatureVerificationFailed), tt).
Proof.
  apply (decode_failure_is_401 (H := Reader.pydantic)
           (mk_app (mk_config [115%N] "token" "chat" 300%Z) (Some reliable_channel))
           1705316400%Z "6f1c" (bytes_of_string "{}") _ tt (bytes_of_string "s")
           ValidationError).
  - discriminate.
  - reflexivity.
  - vm_compute. reflexivity.
  - vm_compute. reflexivity.
Defined.

(** X10: nothing is sent for a request whose signature does not verify
    under the configured secret: the world of the channel is left as it was,
    and the response is one of the two handlers', never the 202. *)
Theorem nothing_sent_unless_verified `{PydanticCore} {W : Type} (app : AppState W)
    (now : Z) (request_id : string) (body : bytes) (header : string) (w : W) :
  (forall secret_bytes,
     str_encode_utf8 (tailscale_webhook_secret (config app)) = Return secret_bytes ->
     verify_signature now header body secret_bytes
       (webhook_timestamp_tolerance_seconds (config app)) <> Return true) ->
  snd (post_events app now request_id body header w) = w /\
  (fst (post_events app now request_id body header w)
   = webhook_verification_error_handler (WebhookVerificationError SecretNotConfigured) \/
   fst (post_events app now request_id body header w)
   = generic_exception_handler TypeError).
Proof.
  intros Hnot. unfold post_events, webhook_tailscale.
  destruct (tailscale_webhook_secret (config app)) as [|c secret];
    [split; [reflexivity|left; reflexivity]|].
  destruct (str_encode_utf8 (c :: secret)) as [secret_bytes|e];
    [|split; [reflexivity|destruct e; auto]].
  specialize (Hnot secret_bytes eq_refl).
  destruct (verify_signature now header body secret_bytes
              (webhook_timestamp_tolerance_seconds (config app))) as [[|]|e];
    [congruence|split; [reflexivity|left; reflexivity]
    |split; [reflexivity|destruct e; auto]].
Qed.

Lemma nothing_sent_unless_verified_witness :
  snd (post_events (H := Reader.pydantic)
         (mk_app (mk_config [115%N] "token" "chat" 300)
            (Some (recording reliable_channel)))
         1705316400 "6f1c" sample_body "t=1705316400,v1=00" (tt, [])) = (tt, []) /\
  (fst (post_events (H := Reader.pydantic)
          (mk_app (mk_config [115%N] "token" "chat" 300)
             (Some (recording reliable_channel)))
          1705316400 "6f1c" sample_body "t=1705316400,v1=00" (tt, []))
   = webhook_verification_error_handler (WebhookVerificationError SecretNotConfigured) \/
   fst (post_events (H := Reader.pydantic)
          (mk_app (mk_config [115%N] "token" "chat" 300)
             (Some (recording reliable_channel)))
          1705316400 "6f1c" sample_body "t=1705316400,v1=00" (tt, []))
   = generic_exception_handler TypeError).
Proof.
  apply (nothing_sent_unless_verified (H := Reader.pydantic)
           (mk_app (mk_config [115%N] "token" "chat" 300%Z)
              (Some (recording reliable_channel)))
           1705316400%Z "6f1c" sample_body "t=1705316400,v1=00" (tt, [])).
  intros secret_bytes Henc. injection Henc as <-. vm_compute. discriminate.
Defined.

(** X11: a signature with a character that is not ASCII, under a fresh
    timestamp, is not answered with the 401: the comparison raises, the
    generic handler answers 500 "Internal server error", and nothing is
    sent. *)
Theorem non_ascii_signature_is_500 `{PydanticCore} {W : Type} (app : AppState W)
    (now : Z) (request_id : string) (body : bytes) (w : W) (secret_bytes : bytes)
    (timestamp : Z) (signature : string) :
  tailscale_webhook_secret (config app) <> [] ->
  str_encode_utf8 (tailscale_webhook_secret (config app)) = Return secret_bytes ->
  (0 <= now - timestamp <= webhook_timestamp_tolerance_seconds (config app))%Z ->
  char_in "," signature = false ->
  isascii signature = false ->
  post_events app now request_id body (signature_header_of timestamp signature) w
  = (mk_response 500 (JObject [("detail", JString "Internal server error")]) [], w).
Proof.
  intros Hsecret Henc Hwin Hcomma Hascii.
  assert (Hverify : verify_signature now (signature_header_of timestamp signature)
                      body secret_bytes
                      (webhook_timestamp_tolerance_seconds (config app))
                    = Raise TypeError).
  { apply verify_raise_characterised. split; [reflexivity|].
    exists signature, timestamp. split; [|split; assumption].
    apply parse_signed_header. exact Hcomma. }
  unfold post_events, webhook_tailscale.
  destruct (tailscale_webhook_secret (config app)) as [|c secret]; [congruence|].
  rewrite Henc, Hverify. reflexivity.
Qed.

Lemma non_ascii_signature_is_500_witness :
  post_events (H := Reader.pydantic)
    (mk_app (mk_config [115%N] "token" "chat" 300) (Some reliable_channel))
    1705316400 "6f1c" sample_body
    (signature_header_of 1705316400 (String (ascii_of_N 233) EmptyString)) tt
  = (mk_response 500 (JObject [("detail", JString "Internal server error")]) [], tt).
Proof.
  apply (non_ascii_signature_is_500 (H := Reader.pydantic)
           (mk_app (mk_config [115%N] "token" "chat" 300%Z) (Some reliable_channel))
           1705316400%Z "6f1c" sample_body tt (bytes_of_string "s")
           1705316400%Z (String (ascii_of_N 233) EmptyString)).
  - discriminate.
  - reflexivity.
  - cbn. lia.
  - reflexivity.
  - reflexivity.
Defined.

(** X12: an empty array under a valid signature is accepted with a count
    of zero, and [send] is not called. *)
Theorem empty_batch_accepted `{PydanticCore} {W : Type} (app : AppState W)
    (now : Z) (request_id : string) (body : bytes) (header : string) (w : W)
    (secret_bytes : bytes) :
  tailscale_webhook_secret (config app) <> [] ->
  str_encode_utf8 (tailscale_webhook_secret (config app)) = Return secret_bytes ->
  verify_signature now header body secret_bytes
    (webhook_timestamp_tolerance_seconds (config app)) = Return true ->
  json_loads body = Some (JArray []) ->
  post_events app now request_id body header w = (accepted_response request_id 0, w).
Proof.
  intros Hsecret Henc Hverify Hbody.
  unfold post_events, webhook_tailscale.
  destruct (tailscale_webhook_secret (config app)) as [|c secret]; [congruence|].
  rewrite Henc, Hverify. unfold validate_json. rewrite Hbody. cbn [traverse].
  destruct (telegram_channel app); reflexivity.
Qed.

Lemma empty_batch_accepted_witness :
  post_events (H := Reader.pydantic)
    (mk_app (mk_config [115%N] "token" "chat" 300)
       (Some (failing_on "node.created" (Return false))))
    1705316400 "6f1c" (bytes_of_string "[]")
    (signature_header_of 1705316400
       (compute_signature 1705316400 (bytes_of_string "[]") (bytes_of_string "s"))) tt
  = (accepted_response "6f1c" 0, tt).
Proof.
  apply (empty_batch_accepted (H := Reader.pydantic)
           (mk_app (mk_config [115%N] "token" "chat" 300%Z)
              (Some (failing_on "node.created" (Return false))))
           1705316400%Z "6f1c" (bytes_of_string "[]") _ tt (bytes_of_string "s")).
  - discriminate.
  - reflexivity.
  - vm_compute. reflexivity.
  - reflexivity.
Defined.

(** ** The dispatch loop, further *)

Lemma process_loop_recorded {W : Type} (channel : Channel W)
    (events : list TailscaleEvent.t) (all_success : bool) (w : W)
    (log : list NotificationPayload.t) :
  process_loop (send (recording channel)) events all_success (w, log)
  = (fst (process_loop (send channel) events all_success w),
     (snd (process_loop (send channel) events all_success w),
      log ++ map NotificationPayload.from_tailscale_event events)).
Proof.
  revert all_success w log.
  induction events as [|event rest IH]; intros all_success w log.
  - cbn. rewrite app_nil_r. reflexivity.
  - cbn [process_loop map]. cbn [recording send fst snd].
    destruct (send channel (NotificationPayload.from_tailscale_event event) w)
      as [[[|]|e] w']; cbn [negb fst snd]; rewrite IH, <- app_assoc; reflexivity.
Qed.

(** X13: for a batch of any length and whatever [send] answers, [send] is
    called once for each event, in the order of the batch: a channel that
    records its calls ends with exactly the payloads of the events, and
    recording changes neither the result nor the world. *)
Theorem every_event_attempted_in_order {W : Type} (channel : Channel W)
    (events : list TailscaleEvent.t) (w : W) :
  process_webhook_events events (Some (recording channel)) (w, [])
  = (fst (process_webhook_events events (Some channel) w),
     (snd (process_webhook_events events (Some channel) w),
      map NotificationPayload.from_tailscale_event events)).
Proof. unfold process_webhook_events. apply process_loop_recorded. Qed.

(** ** Loading the configuration *)

Lemma unset_false (v : option string) :
  unset v = false -> exists c s, v = Some (String c s).
Proof. destruct v as [[|c s]|]; try discriminate. eauto. Qed.

Lemma config_load_cases (env_getter : EnvGetter) :
  (forall config, Config_load env_getter = inr config ->
     unset (env_getter "TAILSCALE_WEBHOOK_SECRET") = false /\
     unset (env_getter "TELEGRAM_BOT_TOKEN") = false /\
     unset (env_getter "TELEGRAM_CHAT_ID") = false /\
     Some (tailscale_webhook_secret config)
       = option_map code_points (env_getter "TAILSCALE_WEBHOOK_SECRET") /\
     Some (telegram_bot_token config) = env_getter "TELEGRAM_BOT_TOKEN" /\
     Some (telegram_chat_id config) = env_getter "TELEGRAM_CHAT_ID") /\
  (unset (env_getter "TAILSCALE_WEBHOOK_SECRET") = true ->
     Config_load env_getter
     = inl (ValueErrorWith "TAILSCALE_WEBHOOK_SECRET is required")) /\
  (unset (env_getter "TAILSCALE_WEBHOOK_SECRET") = false ->
   unset (env_getter "TELEGRAM_BOT_TOKEN") = true ->
     Config_load env_getter = inl (ValueErrorWith "TELEGRAM_BOT_TOKEN is required")) /\
  (unset (env_getter "TAILSCALE_WEBHOOK_SECRET") = false ->
   unset (env_getter "TELEGRAM_BOT_TOKEN") = false ->
   unset (env_getter "TELEGRAM_CHAT_ID") = true ->
     Config_load env_getter = inl (ValueErrorWith "TELEGRAM_CHAT_ID is required")) /\
  (unset (env_getter "TAILSCALE_WEBHOOK_SECRET") = false ->
   unset (env_getter "TELEGRAM_BOT_TOKEN") = false ->
   unset (env_getter "TELEGRAM_CHAT_ID") = false ->
     exists config, Config_load env_getter = inr config).
Proof.
  unfold Config_load.
  set (tolerance_str :=
         match env_getter "WEBHOOK_TIMESTAMP_TOLERANCE_SECONDS" with
         | None | Some EmptyString => "300"%string
         | Some v => v
         end).
  assert (Htol : exists t,
            match py_int tolerance_str with
            | Return t => Return t
            | Raise ValueError => Return 300%Z
            | Raise e => Raise e
            end = Return t).
  { destruct (py_int tolerance_str) as [t|e] eqn:E; [eauto|].
    apply py_int_raises in E. subst e. eauto. }
  destruct Htol as [t ->].
  destruct (env_getter "TAILSCALE_WEBHOOK_SECRET") as [[|c1 s1]|];
    destruct (env_getter "TELEGRAM_BOT_TOKEN") as [[|c2 s2]|];
    destruct (env_getter "TELEGRAM_CHAT_ID") as [[|c3 s3]|];
    cbn [unset option_map];
    (split;
     [intros config E; first [discriminate E | injection E as <-; repeat split]|]);
    repeat split; intros; try easy; eexists; reflexivity.
Qed.

(** X14: [Config.load] succeeds exactly when the secret, the bot token and
    the chat identifier are set and not empty, and then returns them as they
    are. Otherwise it raises a [ValueError] that names the first one that is
    missing, in this order; it raises nothing else, whatever the tolerance
    variable holds. *)
Theorem config_load_outcomes (env_getter : EnvGetter) :
  (forall config, Config_load env_getter = inr config ->
     unset (env_getter "TAILSCALE_WEBHOOK_SECRET") = false /\
     unset (env_getter "TELEGRAM_BOT_TOKEN") = false /\
     unset (env_getter "TELEGRAM_CHAT_ID") = false /\
     Some (tailscale_webhook_secret config)
       = option_map code_points (env_getter "TAILSCALE_WEBHOOK_SECRET") /\
     Some (telegram_bot_token config) = env_getter "TELEGRAM_BOT_TOKEN" /\
     Some (telegram_chat_id config) = env_getter "TELEGRAM_CHAT_ID") /\
  (unset (env_getter "TAILSCALE_WEBHOOK_SECRET") = true ->
     Config_load env_getter
     = inl (ValueErrorWith "TAILSCALE_WEBHOOK_SECRET is required")) /\
  (unset (env_getter "TAILSCALE_WEBHOOK_SECRET") = false ->
   unset (env_getter "TELEGRAM_BOT_TOKEN") = true ->
     Config_load env_getter = inl (ValueErrorWith "TELEGRAM_BOT_TOKEN is required")) /\
  (unset (env_getter "TAILSCALE_WEBHOOK_SECRET") = false ->
   unset (env_getter "TELEGRAM_BOT_TOKEN") = false ->
   unset (env_getter "TELEGRAM_CHAT_ID") = true ->
     Config_load env_getter = inl (ValueErrorWith "TELEGRAM_CHAT_ID is required")) /\
  (unset (env_getter "TAILSCALE_WEBHOOK_SECRET") = false ->
   unset (env_getter "TELEGRAM_BOT_TOKEN") = false ->
   unset (env_getter "TELEGRAM_CHAT_ID") = false ->
     exists config, Config_load env_getter = inr config).
Proof. apply config_load_cases. Qed.

Lemma config_load_outcomes_witness :
  exists config,
    Config_load (env_of (Some "test-secret") None (Some "bot-token") (Some "chat-id"))
    = inr config.
Proof.
  apply (proj2 (proj2 (proj2 (proj2 (config_load_outcomes
           (env_of (Some "test-secret") None (Some "bot-token") (Some "chat-id")))))));
    reflexivity.
Defined.

Lemma config_load_tolerance (env_getter : EnvGetter) (config : Config) :
  Config_load env_getter = inr config ->
  webhook_timestamp_tolerance_seconds config
  = match env_getter "WEBHOOK_TIMESTAMP_TOLERANCE_SECONDS" with
    | None | Some EmptyString => 300%Z
    | Some v => match py_int v with Return t => t | Raise _ => 300%Z end
    end.
Proof.
  unfold Config_load.
  destruct (env_getter "TAILSCALE_WEBHOOK_SECRET") as [[|c1 s1]|]; try discriminate.
  assert (H300 : py_int "300" = Return 300%Z) by reflexivity.
  destruct (env_getter "WEBHOOK_TIMESTAMP_TOLERANCE_SECONDS") as [[|c s]|];
    try rewrite H300;
    try (destruct (py_int (String c s)) as [t|e] eqn:E;
         [|apply py_int_raises in E; subst e]);
    destruct (env_getter "TELEGRAM_BOT_TOKEN") as [[|c2 s2]|]; try discriminate;
    destruct (env_getter "TELEGRAM_CHAT_ID") as [[|c3 s3]|]; try discriminate;
    intros E'; injection E' as <-; reflexivity.
Qed.

(** X15: the tolerance of a loaded configuration. An unset or empty
    variable gives 300, and so does a value that [int] refuses; the decimal
    writing of an integer of at most 4300 digits, a negative one included,
    is taken as it is, with no check of its sign. *)
Theorem config_load_tolerance_rule (env_getter : EnvGetter) (config : Config) :
  Config_load env_getter = inr config ->
  (unset (env_getter "WEBHOOK_TIMESTAMP_TOLERANCE_SECONDS") = true ->
     webhook_timestamp_tolerance_seconds config = 300%Z) /\
  (forall v, env_getter "WEBHOOK_TIMESTAMP_TOLERANCE_SECONDS" = Some v ->
     py_int v = Raise ValueError ->
     webhook_timestamp_tolerance_seconds config = 300%Z) /\
  (forall n : Z,
     within_digit_limit n ->
     env_getter "WEBHOOK_TIMESTAMP_TOLERANCE_SECONDS" = Some (py_str n) ->
     webhook_timestamp_tolerance_seconds config = n).
Proof.
  intros Hload. rewrite (config_load_tolerance env_getter config Hload).
  repeat split.
  - destruct (env_getter "WEBHOOK_TIMESTAMP_TOLERANCE_SECONDS") as [[|c s]|];
      try reflexivity; discriminate.
  - intros v -> Hint. destruct v; [reflexivity|]. rewrite Hint. reflexivity.
  - intros n _ ->. pose proof (py_int_py_str n) as Hint.
    destruct (py_str n) as [|c s] eqn:E; [discriminate Hint|].
    rewrite Hint. reflexivity.
Qed.

Lemma config_load_tolerance_rule_witness :
  webhook_timestamp_tolerance_seconds
    (mk_config (code_points "test-secret") "bot-token" "chat-id" (-5)) = (-5)%Z.
Proof.
  apply (proj2 (proj2 (config_load_tolerance_rule
           (env_of (Some "test-secret") (Some (py_str (-5))) (Some "bot-token")
                   (Some "chat-id"))
           (mk_config (code_points "test-secret") "bot-token" "chat-id" (-5)%Z)
           eq_refl)) (-5)%Z).
  - vm_compute. reflexivity.
  - reflexivity.
Defined.

(** X16: with a configuration that [Config.load] returned, the endpoint
    never takes its "secret not configured" exit: whatever the request, it
    does not raise that error. *)
Theorem loaded_secret_is_configured `{PydanticCore} {W : Type}
    (env_getter : EnvGetter) (cfg : Config) (channel : option (Channel W))
    (now : Z) (request_id : string) (body : bytes) (header : string) (w : W) :
  Config_load env_getter = inr cfg ->
  tailscale_webhook_secret cfg <> [] /\
  fst (webhook_tailscale (mk_app cfg channel) now request_id body header w)
  <> Raise (WebhookVerificationError SecretNotConfigured).
Proof.
  intros Hload.
  destruct (proj1 (config_load_cases env_getter) cfg Hload)
    as [Hsecret [_ [_ [Hvalue _]]]].
  apply unset_false in Hsecret. destruct Hsecret as [c [s Hs]].
  rewrite Hs in Hvalue. cbn [option_map] in Hvalue. injection Hvalue as Hvalue.
  assert (Hne : tailscale_webhook_secret cfg <> []).
  { rewrite Hvalue. discriminate. }
  split; [exact Hne|].
  intros Heq. unfold webhook_tailscale in Heq. cbn [config] in Heq.
  destruct (tailscale_webhook_secret cfg) as [|c0 secret]; [congruence|].
  destruct (str_encode_utf8 (c0 :: secret)) as [secret_bytes|e] eqn:Henc.
  2:{ unfold str_encode_utf8 in Henc.
      destruct (existsb is_surrogate (c0 :: secret)); [|discriminate].
      injection Henc as <-. discriminate. }
  destruct (verify_signature now header body secret_bytes
              (webhook_timestamp_tolerance_seconds cfg)) as [[|]|e] eqn:Hverify.
  3:{ apply verify_raise_characterised in Hverify. destruct Hverify as [-> _].
      discriminate. }
  2:{ discriminate. }
  destruct (validate_json body) as [events|e] eqn:Hdecode.
  2:{ apply validate_json_raises_validation_error in Hdecode. subst e. discriminate. }
  cbn [telegram_channel] in Heq.
  destruct (process_webhook_events events channel w) as [[|] w'];
    cbn in Heq; discriminate Heq.
Qed.

Lemma loaded_secret_is_configured_witness :
  tailscale_webhook_secret
    (mk_config (code_points "test-secret") "bot-token" "chat-id" 300) <> [] /\
  fst (webhook_tailscale (H := Reader.pydantic)
         (mk_app (mk_config (code_points "test-secret") "bot-token" "chat-id" 300)
            (Some reliable_channel))
         1705316400 "6f1c" sample_body "t=1705316400,v1=00" tt)
  <> Raise (WebhookVerificationError SecretNotConfigured).
Proof.
  apply (loaded_secret_is_configured (H := Reader.pydantic)
           (env_of (Some "test-secret") None (Some "bot-token") (Some "chat-id"))
           (mk_config (code_points "test-secret") "bot-token" "chat-id" 300%Z)
           (Some reliable_channel)
           1705316400%Z "6f1c" sample_body "t=1705316400,v1=00" tt).
  reflexivity.
Defined.

(** ** The Telegram channel *)

Lemma len_append (a b : string) :
  Telegram.len (a ++ b) = (Telegram.len a + Telegram.len b)%nat.
Proof.
  induction a as [|c a IH]; [reflexivity|].
  cbn [append Telegram.len]. destruct (Telegram.is_continuation c); rewrite IH; reflexivity.
Qed.

Lemma len_take (n : nat) (s : string) :
  Telegram.len (Telegram.take n s) = Nat.min n (Telegram.len s).
Proof.
  revert n. induction s as [|c s IH]; intros n; cbn [Telegram.take Telegram.len].
  - rewrite Nat.min_0_r. reflexivity.
  - destruct (Telegram.is_continuation c) eqn:E.
    + cbn [Telegram.len]. rewrite E. apply IH.
    + destruct n as [|n]; [reflexivity|].
      cbn [Telegram.len]. rewrite E, IH. reflexivity.
Qed.

(** X17: a detail of the message never shows more than 100 characters of
    a value: a value of at most 100 characters is shown as it is, a longer
    one as its first 97 characters and three dots, 100 in all. Characters
    are code points, whatever the number of bytes of each. *)
Theorem shown_value_at_most_100 `{Telegram.Builtins} (value : json) :
  (Telegram.len (Telegram.shown_value value) <= 100)%nat /\
  forall s, value = JString s ->
    ((Telegram.len s <= 100)%nat -> Telegram.shown_value value = s) /\
    ((100 < Telegram.len s)%nat ->
       Telegram.shown_value value = (Telegram.take 97 s ++ "...")%string /\
       Telegram.len (Telegram.shown_value value) = 100%nat).
Proof.
  unfold Telegram.shown_value.
  set (value_str := match value with JString s => s | _ => Telegram.str_of_value value end).
  assert (Hcut : (100 < Telegram.len value_str)%nat ->
                 Telegram.len (Telegram.take 97 value_str ++ "...") = 100%nat).
  { intros Hlong. rewrite len_append, len_take.
    change (Telegram.len "...") with 3%nat. lia. }
  split.
  - destruct (Nat.ltb_spec 100 (Telegram.len value_str)) as [Hlong|Hshort].
    + rewrite Hcut by exact Hlong. lia.
    + exact Hshort.
  - intros s ->. subst value_str. cbv beta iota. split.
    + intros Hshort. destruct (Nat.ltb_spec 100 (Telegram.len s)); [lia|reflexivity].
    + intros Hlong. destruct (Nat.ltb_spec 100 (Telegram.len s)); [|lia].
      split; [reflexivity|]. apply Hcut. exact Hlong.
Qed.

Lemma shown_value_at_most_100_witness :
  Telegram.shown_value (H := scalar_str) (JString "short") = "short".
Proof.
  apply (proj1 (proj2 (shown_value_at_most_100 (H := scalar_str) (JString "short"))
                  "short" eq_refl)).
  cbn. lia.
Defined.

Lemma request_for_with_client `{Telegram.Builtins}
    (self : Telegram.TelegramNotificationChannel) (client : option nat) (owns : bool)
    (payload : NotificationPayload.t) :
  Telegram.request_for
    (Telegram.mk (Telegram.bot_token self) (Telegram.chat_id self) client owns) payload
  = Telegram.request_for self payload.
Proof. reflexivity. Qed.

(** [send] of a channel that has its client. *)
Lemma send_with_client `{Telegram.Httpx} `{Telegram.Builtins}
    (self : Telegram.TelegramNotificationChannel) (client : nat)
    (payload : NotificationPayload.t) (tr : Telegram.trace) :
  Telegram.http_client self = Some client ->
  Telegram.send self payload tr
  = (Return (succeeded (Telegram.answer tr client (Telegram.request_for self payload))),
     self,
     tr ++ [Telegram.Posted client (Telegram.request_for self payload)]).
Proof.
  intros Hc. unfold Telegram.send, Telegram._get_client. rewrite Hc.
  destruct (Telegram.answer tr client (Telegram.request_for self payload)) as [st t| |];
    cbn [succeeded]; [destruct (st =? 200)%Z|..]; reflexivity.
Qed.

Lemma process_loop_with_client `{Telegram.Httpx} `{Telegram.Builtins}
    (self : Telegram.TelegramNotificationChannel) (client : nat)
    (events : list TailscaleEvent.t) (all_success : bool) (tr : Telegram.trace) :
  Telegram.http_client self = Some client ->
  snd (process_loop (send Telegram.channel) events all_success (self, tr))
  = (self, tr ++ posts_of self client events).
Proof.
  intros Hc. revert all_success tr.
  induction events as [|event rest IH]; intros all_success tr.
  - cbn. rewrite app_nil_r. reflexivity.
  - cbn [process_loop]. cbn [send Telegram.channel fst snd].
    rewrite (send_with_client self client _ tr Hc).
    destruct (succeeded _); cbn [negb]; rewrite IH;
      unfold posts_of; cbn [map]; rewrite <- app_assoc; reflexivity.
Qed.

Lemma batch_through_fresh_channel `{Telegram.Httpx} `{Telegram.Builtins}
    (bot_token chat_id : string) (events : list TailscaleEvent.t)
    (tr : Telegram.trace) :
  (forall t, Telegram.creation t = None) ->
  snd (process_webhook_events events (Some Telegram.channel)
         (Telegram.init bot_token chat_id None, tr))
  = match events with
    | [] => (Telegram.init bot_token chat_id None, tr)
    | _ :: _ =>
        (Telegram.mk bot_token chat_id (Some (List.length tr)) true,
         tr ++ Telegram.Created (List.length tr)
            :: posts_of (Telegram.init bot_token chat_id None) (List.length tr) events)
    end.
Proof.
  intros Hmake. destruct events as [|event rest]; [reflexivity|].
  unfold process_webhook_events. cbn [process_loop].
  cbn [send Telegram.channel fst snd].
  unfold Telegram.send at 1. unfold Telegram._get_client.
  cbn [Telegram.init Telegram.http_client Telegram.bot_token Telegram.chat_id
       Telegram._owns_client].
  rewrite Hmake.
  set (self' := Telegram.mk bot_token chat_id (Some (List.length tr)) true).
  assert (Hrest : forall b,
            snd (process_loop (send Telegram.channel) rest b
                   (self', (tr ++ [Telegram.Created (List.length tr)])
                           ++ [Telegram.Posted (List.length tr)
                                 (Telegram.request_for self'
                                    (NotificationPayload.from_tailscale_event event))]))
            = (self',
               tr ++ Telegram.Created (List.length tr)
                  :: posts_of (Telegram.init bot_token chat_id None) (List.length tr)
                       (event :: rest))).
  { intros b. rewrite (process_loop_with_client self' (List.length tr)) by reflexivity.
    unfold posts_of. cbn [map]. rewrite <- !app_assoc. reflexivity. }
  destruct (Telegram.answer _ _ _) as [st t| |];
    [destruct (st =? 200)%Z|..]; cbn [negb]; apply Hrest.
Qed.

(** X18: a batch through a channel that starts without a client, when a
    client can be made. No client is made for an empty batch; otherwise one
    client is made, by the first [send], and it carries one POST for each
    event, in the order of the batch, to the [sendMessage] address of the
    bot, whatever the answers are. *)
Theorem telegram_batch_trace `{Telegram.Httpx} `{Telegram.Builtins}
    (bot_token chat_id : string) (events : list TailscaleEvent.t)
    (tr : Telegram.trace) :
  (forall t, Telegram.creation t = None) ->
  snd (process_webhook_events events (Some Telegram.channel)
         (Telegram.init bot_token chat_id None, tr))
  = match events with
    | [] => (Telegram.init bot_token chat_id None, tr)
    | _ :: _ =>
        (Telegram.mk bot_token chat_id (Some (List.length tr)) true,
         tr ++ Telegram.Created (List.length tr)
            :: posts_of (Telegram.init bot_token chat_id None) (List.length tr) events)
    end.
Proof. apply batch_through_fresh_channel. Qed.

Lemma telegram_batch_trace_witness :
  snd (process_webhook_events
         [sample_event "node.created"; sample_event "node.deleted"]
         (Some (Telegram.channel (H := sample_network) (H0 := scalar_str)))
         (Telegram.init "123:abc" "42" None, []))
  = (Telegram.mk "123:abc" "42" (Some 0%nat) true,
     [] ++ Telegram.Created 0
        :: posts_of (H := scalar_str) (Telegram.init "123:abc" "42" None) 0
             [sample_event "node.created"; sample_event "node.deleted"]).
Proof.
  apply (telegram_batch_trace (H := sample_network) (H0 := scalar_str)
           "123:abc" "42" [sample_event "node.created"; sample_event "node.deleted"] []).
  reflexivity.
Defined.

(** X19: what [send] returns. With a client, [send] never raises: it
    makes one POST and returns [True] when the answer is a response of status
    200, [False] for any other status, for an [httpx.RequestError] and for any
    other exception of the POST. Without a client, an exception of the
    client's creation is not caught: [send] raises it, and nothing is
    posted. *)
Theorem telegram_send_outcomes `{Telegram.Httpx} `{Telegram.Builtins}
    (self : Telegram.TelegramNotificationChannel) (payload : NotificationPayload.t)
    (tr : Telegram.trace) :
  (forall client, Telegram.http_client self = Some client ->
     Telegram.send self payload tr
     = (Return (succeeded (Telegram.answer tr client
                             (Telegram.request_for self payload))),
        self,
        tr ++ [Telegram.Posted client (Telegram.request_for self payload)])) /\
  (forall e, Telegram.http_client self = None -> Telegram.creation tr = Some e ->
     Telegram.send self payload tr = (Raise e, self, tr)) /\
  succeeded Telegram.RaisedRequestError = false /\
  succeeded Telegram.RaisedOther = false /\
  (forall status_code response_text,
     succeeded (Telegram.Responded status_code response_text) = true <->
     status_code = 200%Z).
Proof.
  repeat split.
  - intros client Hc. apply send_with_client. exact Hc.
  - intros e Hc He. unfold Telegram.send, Telegram._get_client.
    rewrite Hc, He. reflexivity.
  - cbn [succeeded]. apply Z.eqb_eq.
  - cbn [succeeded]. apply Z.eqb_eq.
Qed.

Lemma telegram_send_outcomes_witness :
  Telegram.send (H := sample_network) (H0 := scalar_str)
    (Telegram.init "123:abc" "42" (Some 7%nat))
    (NotificationPayload.from_tailscale_event (sample_event "node.deleted")) []
  = (Return (succeeded (Telegram.answer (Httpx := sample_network) [] 7%nat
                          (Telegram.request_for (H := scalar_str)
                             (Telegram.init "123:abc" "42" (Some 7%nat))
                             (NotificationPayload.from_tailscale_event
                                (sample_event "node.deleted"))))),
     Telegram.init "123:abc" "42" (Some 7%nat),
     [] ++ [Telegram.Posted 7%nat
              (Telegram.request_for (H := scalar_str)
                 (Telegram.init "123:abc" "42" (Some 7%nat))
                 (NotificationPayload.from_tailscale_event
                    (sample_event "node.deleted")))]).
Proof.
  apply (proj1 (telegram_send_outcomes (H := sample_network) (H0 := scalar_str)
                  (Telegram.init "123:abc" "42" (Some 7%nat))
                  (NotificationPayload.from_tailscale_event (sample_event "node.deleted"))
                  []) 7%nat).
  reflexivity.
Defined.

(** X20: when no client can be made, each [send] of the batch raises and
    the loop goes on all the same: nothing is posted, the channel stays
    without a client, and the result is [False] for a batch that is not
    empty. *)
Theorem no_client_no_post `{Telegram.Httpx} `{Telegram.Builtins}
    (bot_token chat_id : string) (events : list TailscaleEvent.t)
    (tr : Telegram.trace) (e : exn) :
  (forall t, Telegram.creation t = Some e) ->
  process_webhook_events events (Some Telegram.channel)
    (Telegram.init bot_token chat_id None, tr)
  = (match events with [] => true | _ :: _ => false end,
     (Telegram.init bot_token chat_id None, tr)).
Proof.
  intros Hfail. unfold process_webhook_events.
  assert (Hloop : forall b,
            process_loop (send Telegram.channel) events b
              (Telegram.init bot_token chat_id None, tr)
            = (match events with [] => b | _ :: _ => false end,
               (Telegram.init bot_token chat_id None, tr))).
  { induction events as [|event rest IH]; intros b; [reflexivity|].
    cbn [process_loop]. cbn [send Telegram.channel fst snd].
    unfold Telegram.send, Telegram._get_client.
    cbn [Telegram.init Telegram.http_client]. rewrite Hfail.
    rewrite IH. destruct rest; reflexivity. }
  apply Hloop.
Qed.

Lemma no_client_no_post_witness :
  process_webhook_events [sample_event "node.created"]
    (Some (Telegram.channel
             (H := {| Telegram.creation := fun _ => Some TypeError;
                      Telegram.answer := fun _ _ _ => Telegram.Responded 200 "ok" |})
             (H0 := scalar_str)))
    (Telegram.init "123:abc" "42" None, [])
  = (false, (Telegram.init "123:abc" "42" None, [])).
Proof.
  apply (no_client_no_post
           (H := {| Telegram.creation := fun _ => Some TypeError;
                    Telegram.answer := fun _ _ _ => Telegram.Responded 200 "ok" |})
           (H0 := scalar_str)
           "123:abc" "42" [sample_event "node.created"] [] TypeError).
  reflexivity.
Defined.

(** X21: the client is released by the channel that made it, and only by
    it. After a batch that is not empty, the shutdown closes the client that
    the first [send] made, once; a channel that never sent has no client
    and closes nothing; a channel that was given its client makes none, uses
    the given one for every POST and does not close it. *)
Theorem shutdown_closes_own_client `{Telegram.Httpx} `{Telegram.Builtins}
    (bot_token chat_id : string) (event : TailscaleEvent.t)
    (rest : list TailscaleEvent.t) (tr : Telegram.trace) (given : nat) :
  ((forall t, Telegram.creation t = None) ->
   let st := snd (process_webhook_events (event :: rest) (Some Telegram.channel)
                    (Telegram.init bot_token chat_id None, tr)) in
   lifespan_shutdown (Some (fst st)) (snd st)
   = snd st ++ [Telegram.Closed (List.length tr)]) /\
  lifespan_shutdown (Some (Telegram.init bot_token chat_id None)) tr = tr /\
  (let st := snd (process_webhook_events (event :: rest) (Some Telegram.channel)
                    (Telegram.init bot_token chat_id (Some given), tr)) in
   st = (Telegram.init bot_token chat_id (Some given),
         tr ++ posts_of (Telegram.init bot_token chat_id (Some given)) given
                 (event :: rest)) /\
   lifespan_shutdown (Some (fst st)) (snd st) = snd st).
Proof.
  repeat split.
  - intros Hmake. cbv zeta.
    rewrite (batch_through_fresh_channel bot_token chat_id (event :: rest) tr Hmake).
    reflexivity.
  - cbv zeta. unfold process_webhook_events.
    apply (process_loop_with_client (Telegram.init bot_token chat_id (Some given)) given).
    reflexivity.
  - cbv zeta. unfold process_webhook_events.
    rewrite (process_loop_with_client (Telegram.init bot_token chat_id (Some given)) given)
      by reflexivity.
    reflexivity.
Qed.

Lemma shutdown_closes_own_client_witness :
  lifespan_shutdown
    (Some (fst (snd (process_webhook_events [sample_event "node.created"]
                       (Some (Telegram.channel (H := sample_network) (H0 := scalar_str)))
                       (Telegram.init "123:abc" "42" None, [])))))
    (snd (snd (process_webhook_events [sample_event "node.created"]
                 (Some (Telegram.channel (H := sample_network) (H0 := scalar_str)))
                 (Telegram.init "123:abc" "42" None, []))))
  = snd (snd (process_webhook_events [sample_event "node.created"]
                (Some (Telegram.channel (H := sample_network) (H0 := scalar_str)))
                (Telegram.init "123:abc" "42" None, [])))
    ++ [Telegram.Closed 0].
Proof.
  apply (proj1 (shutdown_closes_own_client (H := sample_network) (H0 := scalar_str)
                  "123:abc" "42" (sample_event "node.created") [] [] 0%nat)).
  reflexivity.
Defined.

(** ** A created application, end to end *)

Lemma code_is_not_surrogate (c : ascii) : is_surrogate (code c) = false.
Proof. destruct c as [[] [] [] [] [] [] [] []]; reflexivity. Qed.

Lemma code_points_encodable (s : string) :
  str_encode_utf8 (code_points s) = Return (encode_utf8 s).
Proof.
  unfold str_encode_utf8, code_points, encode_utf8.
  replace (existsb is_surrogate (map code (list_ascii_of_string s))) with false.
  - rewrite flat_map_concat_map, map_map, <- flat_map_concat_map. reflexivity.
  - symmetry. induction (list_ascii_of_string s) as [|c l IH]; [reflexivity|].
    cbn [map existsb]. rewrite code_is_not_surrogate, IH. reflexivity.
Qed.

Lemma process_loop_all_succeed `{Telegram.Httpx} `{Telegram.Builtins}
    (events : list TailscaleEvent.t) :
  (forall t, Telegram.creation t = None) ->
  (forall t client request, succeeded (Telegram.answer t client request) = true) ->
  forall (self : Telegram.TelegramNotificationChannel) (tr : Telegram.trace) (b : bool),
    fst (process_loop (send Telegram.channel) events b (self, tr)) = b.
Proof.
  intros Hmake Hok.
  induction events as [|event rest IH]; intros self tr b; [reflexivity|].
  cbn [process_loop]. cbn [send Telegram.channel fst snd].
  unfold Telegram.send, Telegram._get_client.
  destruct (Telegram.http_client self) as [client|].
  - pose proof (Hok tr client (Telegram.request_for self
                  (NotificationPayload.from_tailscale_event event))) as Hans.
    destruct (Telegram.answer _ _ _) as [st t| |]; cbn [succeeded] in Hans;
      try discriminate.
    rewrite Hans. cbn [negb]. apply IH.
  - rewrite Hmake.
    match goal with
    | |- context [Telegram.answer ?t ?c ?r] => pose proof (Hok t c r) as Hans;
        destruct (Telegram.answer t c r) as [st t'| |]
    end; cbn [succeeded] in Hans; try discriminate.
    rewrite Hans. cbn [negb]. apply IH.
Qed.

(** X22: an application made by [create_app], in a network where a client
    can be made and every POST is answered with status 200. A request whose
    signature verifies under the secret of the environment and whose body
    decodes is accepted with the count of its events, and the channel made
    one POST for each of them, in order, through one client made on the first
    of them. *)
Theorem created_app_delivers `{PydanticCore} `{Telegram.Httpx} `{Telegram.Builtins}
    (env_getter : EnvGetter)
    (app : AppState (Telegram.TelegramNotificationChannel * Telegram.trace))
    (channel : Telegram.TelegramNotificationChannel)
    (secret : string) (now : Z) (request_id : string) (body : bytes) (header : string)
    (tr : Telegram.trace) (events : list TailscaleEvent.t) :
  create_app env_getter = inr (app, channel) ->
  env_getter "TAILSCALE_WEBHOOK_SECRET" = Some secret ->
  (forall t, Telegram.creation t = None) ->
  (forall t client request, succeeded (Telegram.answer t client request) = true) ->
  verify_signature now header body (encode_utf8 secret)
    (webhook_timestamp_tolerance_seconds (config app)) = Return true ->
  validate_json body = Return events ->
  post_events app now request_id body header (channel, tr)
  = (accepted_response request_id (List.length events),
     match events with
     | [] => (channel, tr)
     | _ :: _ =>
         (Telegram.mk (Telegram.bot_token channel) (Telegram.chat_id channel)
            (Some (List.length tr)) true,
          tr ++ Telegram.Created (List.length tr)
             :: posts_of channel (List.length tr) events)
     end).
Proof.
  intros Hcreate Hsecret Hmake Hok Hverify Hdecode.
  unfold create_app in Hcreate.
  destruct (Config_load env_getter) as [e|cfg] eqn:Hload; [discriminate|].
  injection Hcreate as <- <-.
  destruct (proj1 (config_load_cases env_getter) cfg Hload)
    as [Hset [_ [_ [Hvalue _]]]].
  rewrite Hsecret in Hvalue, Hset. cbn [option_map] in Hvalue.
  injection Hvalue as Hvalue.
  assert (Hne : tailscale_webhook_secret cfg <> []).
  { rewrite Hvalue. destruct secret; [discriminate Hset|discriminate]. }
  unfold post_events.
  rewrite (webhook_tailscale_delivers
             (mk_app cfg (Some Telegram.channel)) now request_id body header _
             (encode_utf8 secret) events).
  - rewrite <- process_webhook_events_result. cbn [telegram_channel].
    unfold process_webhook_events at 1.
    rewrite (process_loop_all_succeed events Hmake Hok). cbv iota.
    f_equal.
    rewrite (batch_through_fresh_channel (telegram_bot_token cfg) (telegram_chat_id cfg)
               events tr Hmake).
    destruct events; reflexivity.
  - exact Hne.
  - cbn [config]. rewrite Hvalue. apply code_points_encodable.
  - exact Hverify.
  - exact Hdecode.
Qed.

Lemma created_app_delivers_witness :
  post_events (H := Reader.pydantic)
    (mk_app (mk_config (code_points "s") "123:abc" "42" 300)
       (Some (Telegram.channel (H := reliable_network) (H0 := scalar_str))))
    1705316400 "6f1c" sample_body
    (signature_header_of 1705316400
       (compute_signature 1705316400 sample_body (bytes_of_string "s")))
    (Telegram.init "123:abc" "42" None, [])
  = (accepted_response "6f1c" 1,
     (Telegram.mk "123:abc" "42" (Some 0%nat) true,
      [] ++ Telegram.Created 0
         :: posts_of (H := scalar_str) (Telegram.init "123:abc" "42" None) 0
              [sample_event "node.created"])).
Proof.
  apply (created_app_delivers (H := Reader.pydantic) (H0 := reliable_network)
           (H1 := scalar_str)
           (env_of (Some "s") None (Some "123:abc") (Some "42"))
           (mk_app (mk_config (code_points "s") "123:abc" "42" 300%Z)
              (Some (Telegram.channel (H := reliable_network) (H0 := scalar_str))))
           (Telegram.init "123:abc" "42" None)
           "s" 1705316400%Z "6f1c" sample_body _ [] [sample_event "node.created"]).
  - reflexivity.
  - reflexivity.
  - reflexivity.
  - reflexivity.
  - vm_compute. reflexivity.
  - vm_compute. reflexivity.
Defined.

(** ** Tampering with a formatted header *)

(** X23: for a header [t=<timestamp>,v1=<signature>] whose signature text
    has no comma, verification returns [True] exactly when the timestamp is
    within the window and the text is the computed signature. A header that
    carries any other text, one character changed or one removed, never
    verifies; and a header signed for another body or under another secret
    verifies only if the two digests coincide. *)
Theorem formatted_header_verifies_iff (now timestamp : Z) (signature : string)
    (body secret : bytes) (tol : Z) :
  char_in "," signature = false ->
  (verify_signature now (signature_header_of timestamp signature) body secret tol
   = Return true
   <-> (0 <= now - timestamp <= tol)%Z /\
       signature = compute_signature timestamp body secret) /\
  (isascii signature = true ->
   signature <> compute_signature timestamp body secret ->
   verify_signature now (signature_header_of timestamp signature) body secret tol
   = Return false).
Proof.
  intros Hcomma.
  pose proof (parse_signed_header timestamp signature Hcomma) as Hparse.
  split; [split|].
  - intros Hverify. apply verify_true_characterised in Hverify.
    destruct Hverify as [sig [ts [Hp [Hwin Hsig]]]].
    rewrite Hparse in Hp. injection Hp as <- <-. split; assumption.
  - intros [Hwin Hsig]. apply verify_true_characterised.
    exists signature, timestamp. repeat split; try assumption; lia.
  - intros Hascii Hother. unfold verify_signature. rewrite Hparse. cbn [bind].
    destruct (validate_timestamp now timestamp tol); cbn [negb]; [|reflexivity].
    unfold compare_digest.
    destruct (compute_signature_plain timestamp body secret) as [-> _].
    rewrite Hascii. cbn [andb bind].
    destruct (String.eqb (compute_signature timestamp body secret) signature) eqn:E;
      [|reflexivity].
    apply String.eqb_eq in E. congruence.
Qed.

Lemma formatted_header_verifies_iff_witness :
  verify_signature 1705316400
    (signature_header_of 1705316400
       "badbadbadbadbadbadbadbadbadbadbadbadbadbadbadbadbadbadbadbadbadb")
    sample_body (bytes_of_string "s") 300
  = Return false.
Proof.
  apply (proj2 (formatted_header_verifies_iff 1705316400 1705316400
                  "badbadbadbadbadbadbadbadbadbadbadbadbadbadbadbadbadbadbadbadbadb"
                  sample_body (bytes_of_string "s") 300 eq_refl)).
  - reflexivity.
  - vm_compute. discriminate.
Defined.
